(** * HA-iDRAC: the MQTT client of the iDRAC controller add-on

    A shallow embedding of [ha-idrac-controller/app/mqtt_client.py]
    (class [MqttClient]) and the properties of its connection life cycle,
    of the Home Assistant discovery messages and of the state messages.

    Conventions of the embedding.
    - A Python [str] is a [string]; each character stands for the code
      point of the same number (code points below 256).
    - The paho client held in [self.client] is external: the embedding
      records the calls made on it, in order, and takes what each call
      answers (a value or an exception) from an oracle.
    - A method is a computation in a state and exception monad over the
      fields of the instance; state changes made before an exception is
      raised persist, as in Python.
    - [json.dumps] is Python's, with its default settings: [json_dumps]
      is the text it returns; whether it raises instead, on an object a
      caller hands in, is taken from an oracle, as the interpreter decides
      it (an [int] too long to print, a nesting too deep).  [json.loads],
      which the class never calls, is the decoder a subscriber reads the
      payloads with. *)

From Stdlib Require Import String Ascii List ZArith NArith Bool Lia.
From Stdlib Require Import DecimalN DecimalFacts.
Import ListNotations.
Local Open Scope string_scope.

(** ** Python values and text *)

(** The double quote character (it cannot be written inside a literal). *)
Definition dquote : ascii := "034"%char.

(** Decimal digits. *)
Inductive digit : Type := d0 | d1 | d2 | d3 | d4 | d5 | d6 | d7 | d8 | d9.

Definition digit_chr (d : digit) : ascii :=
  match d with
  | d0 => "0" | d1 => "1" | d2 => "2" | d3 => "3" | d4 => "4"
  | d5 => "5" | d6 => "6" | d7 => "7" | d8 => "8" | d9 => "9"
  end%char.

Fixpoint str_of_digits (ds : list digit) : string :=
  match ds with
  | [] => EmptyString
  | d :: ds' => String (digit_chr d) (str_of_digits ds')
  end.

Fixpoint uint_digits (u : Decimal.uint) : list digit :=
  match u with
  | Decimal.Nil => []
  | Decimal.D0 u' => d0 :: uint_digits u'
  | Decimal.D1 u' => d1 :: uint_digits u'
  | Decimal.D2 u' => d2 :: uint_digits u'
  | Decimal.D3 u' => d3 :: uint_digits u'
  | Decimal.D4 u' => d4 :: uint_digits u'
  | Decimal.D5 u' => d5 :: uint_digits u'
  | Decimal.D6 u' => d6 :: uint_digits u'
  | Decimal.D7 u' => d7 :: uint_digits u'
  | Decimal.D8 u' => d8 :: uint_digits u'
  | Decimal.D9 u' => d9 :: uint_digits u'
  end.

(** The decimal digits of a natural number, most significant first;
    zero is the single digit 0. *)
Definition digits_of_N (n : N) : list digit := uint_digits (N.to_uint n).

Definition str_of_N (n : N) : string := str_of_digits (digits_of_N n).

(** [str(n)] for an [int]. *)
Definition str_of_Z (z : Z) : string :=
  match z with
  | Zneg p => "-" ++ str_of_N (Npos p)
  | _ => str_of_N (Z.to_N z)
  end.

Definition hex_digit (n : N) : ascii :=
  if (n <? 10)%N then ascii_of_N (48 + n) else ascii_of_N (87 + n).

(** Two lower-case hexadecimal digits of a character code. *)
Definition hex2 (c : ascii) : string :=
  let n := N_of_ascii c in
  String (hex_digit (n / 16)) (String (hex_digit (n mod 16)) EmptyString).

Fixpoint str_contains (c : ascii) (s : string) : bool :=
  match s with
  | EmptyString => false
  | String a s' => Ascii.eqb a c || str_contains c s'
  end.

(** [s.replace(old, new)] for one-character [old] and [new]. *)
Fixpoint str_replace (old new : ascii) (s : string) : string :=
  match s with
  | EmptyString => EmptyString
  | String a s' =>
      String (if Ascii.eqb a old then new else a) (str_replace old new s')
  end.

(** [s.lower()] on code points below 256. *)
Definition chr_lower (c : ascii) : ascii :=
  let n := N_of_ascii c in
  if ((65 <=? n) && (n <=? 90) ||
      (192 <=? n) && (n <=? 222) && negb (n =? 215))%N
  then ascii_of_N (n + 32) else c.

Fixpoint str_lower (s : string) : string :=
  match s with
  | EmptyString => EmptyString
  | String a s' => String (chr_lower a) (str_lower s')
  end.

(** Truth value of a [str]: empty is false. *)
Definition str_truthy (s : string) : bool :=
  match s with EmptyString => false | _ => true end.

(** Truth value of an argument that is [None] or a [str]. *)
Definition opt_truthy (o : option string) : bool :=
  match o with Some s => str_truthy s | None => false end.

(** [o or default] for an argument that is [None] or a [str]. *)
Definition opt_or (o : option string) (default : string) : string :=
  match o with
  | Some s => if str_truthy s then s else default
  | None => default
  end.

Fixpoint join (sep : string) (l : list string) : string :=
  match l with
  | [] => EmptyString
  | [x] => x
  | x :: l' => x ++ sep ++ join sep l'
  end.

(** *** [repr] of a [str], as an f-string shows the strings inside a dict *)

Definition chr_printable (c : ascii) : bool :=
  let n := N_of_ascii c in
  ((32 <=? n) && (n <? 127) || (161 <=? n) && negb (n =? 173))%N.

Definition repr_chr (quote c : ascii) : string :=
  if Ascii.eqb c "\"%char then "\\"
  else if Ascii.eqb c quote then String "\"%char (String c EmptyString)
  else if Ascii.eqb c "009"%char then "\t"
  else if Ascii.eqb c "010"%char then "\n"
  else if Ascii.eqb c "013"%char then "\r"
  else if chr_printable c then String c EmptyString
  else "\x" ++ hex2 c.

Fixpoint repr_body (quote : ascii) (s : string) : string :=
  match s with
  | EmptyString => EmptyString
  | String a s' => repr_chr quote a ++ repr_body quote s'
  end.

Definition repr_str (s : string) : string :=
  let quote :=
    if str_contains "'"%char s && negb (str_contains dquote s)
    then dquote else "'"%char in
  String quote (repr_body quote s ++ String quote EmptyString).

Definition repr_list (l : list string) : string :=
  "[" ++ join ", " (map repr_str l) ++ "]".

(** ** Exceptions and results *)

(** The exceptions a call can raise, by the classes the handlers of the
    source tell apart; [msg] is [str(e)].  [Exception] stands for every
    class under [Exception] that is not an [OSError]. *)
Inductive PyExc : Type :=
| ConnectionRefusedError (msg : string)
| OSError (msg : string)
| Exception (msg : string).

Definition exc_str (e : PyExc) : string :=
  match e with
  | ConnectionRefusedError m | OSError m | Exception m => m
  end.

Inductive Result (A : Type) : Type :=
| Return (a : A)
| Raise (e : PyExc).
Arguments Return {A} a.
Arguments Raise {A} e.

(** What a method hands back to its caller. *)
Inductive PyVal : Type :=
| PyNone
| PyBool (b : bool).

(** ** The transport *)

Record Message : Type := mkMessage {
  topic : string;
  payload : string;
  qos : Z;
  retain : bool
}.

(** The calls the class makes on the paho client. *)
Inductive PahoCall : Type :=
| username_pw_set (user pass : string)
| will_set (m : Message)
| paho_connect (host : string) (port keepalive : Z)
| loop_start
| loop_stop
| paho_disconnect
| paho_publish (m : Message).

(** What [client.publish] returns: [rc] and what [is_published()] gives. *)
Record MQTTMessageInfo : Type := mkInfo {
  info_rc : Z;
  info_is_published : Result bool
}.

Definition MQTT_ERR_SUCCESS : Z := 0.

(** The messages handed to [client.publish], oldest first. *)
Fixpoint published (calls : list PahoCall) : list Message :=
  match calls with
  | [] => []
  | paho_publish m :: cs => m :: published cs
  | _ :: cs => published cs
  end.

(** ** The instance *)

(** [device_info_dict]: the keys are fixed, so the dict is a record. *)
Record DeviceInfo : Type := mkDeviceInfo {
  identifiers : list string;
  name : string;
  model : string;
  manufacturer : string
}.

(** The fields of [__init__], the calls made on [self.client] so far
    ([client]) and the lines printed so far ([stdout]). *)
Record MqttClient : Type := mkClient {
  client_id : string;
  client : list PahoCall;
  broker_address : string;
  port : Z;
  username : string;
  password : string;
  is_connected : bool;
  device_info_dict : option DeviceInfo;
  log_level : string;
  stdout : list string
}.

Definition init (cid : string) : MqttClient :=
  mkClient cid [] "core-mosquitto" 1883 "" "" false None "info" [].

Definition default_client_id : string := "ha_idrac_controller_2".

Definition with_client (cs : list PahoCall) (s : MqttClient) : MqttClient :=
  mkClient (client_id s) cs (broker_address s) (port s) (username s)
           (password s) (is_connected s) (device_info_dict s) (log_level s)
           (stdout s).

Definition with_is_connected (b : bool) (s : MqttClient) : MqttClient :=
  mkClient (client_id s) (client s) (broker_address s) (port s) (username s)
           (password s) b (device_info_dict s) (log_level s) (stdout s).

Definition with_device_info (d : option DeviceInfo) (s : MqttClient)
  : MqttClient :=
  mkClient (client_id s) (client s) (broker_address s) (port s) (username s)
           (password s) (is_connected s) d (log_level s) (stdout s).

Definition with_stdout (out : list string) (s : MqttClient) : MqttClient :=
  mkClient (client_id s) (client s) (broker_address s) (port s) (username s)
           (password s) (is_connected s) (device_info_dict s) (log_level s)
           out.

Definition with_broker (h : string) (p : Z) (u pw lvl : string)
           (s : MqttClient) : MqttClient :=
  mkClient (client_id s) (client s) h p u pw (is_connected s)
           (device_info_dict s) lvl (stdout s).

(** ** The monad of methods *)

Definition M (A : Type) : Type := MqttClient -> Result A * MqttClient.

Definition ret {A} (a : A) : M A := fun s => (Return a, s).

Definition raise {A} (e : PyExc) : M A := fun s => (Raise e, s).

Definition bind {A B} (m : M A) (k : A -> M B) : M B :=
  fun s =>
    match m s with
    | (Return a, s') => k a s'
    | (Raise e, s') => (Raise e, s')
    end.

(** [try: body  except ... as e: handler e]; every class of [PyExc] is
    under [Exception], the handler tells the classes apart itself. *)
Definition try_except {A} (body : M A) (handler : PyExc -> M A) : M A :=
  fun s =>
    match body s with
    | (Return a, s') => (Return a, s')
    | (Raise e, s') => handler e s'
    end.

Definition get {A} (f : MqttClient -> A) : M A := fun s => (Return (f s), s).

Definition modify (f : MqttClient -> MqttClient) : M unit :=
  fun s => (Return tt, f s).

Declare Scope py_scope.
Delimit Scope py_scope with py.
Notation "x <- m ;; k" := (bind m (fun x => k))
  (at level 61, m at next level, right associativity) : py_scope.
Notation "m ;; k" := (bind m (fun _ => k))
  (at level 61, right associativity) : py_scope.
Local Open Scope py_scope.

(** The state a method leaves and the value it returns. *)
Definition state_after {A} (m : M A) (s : MqttClient) : MqttClient :=
  snd (m s).
Definition result_of {A} (m : M A) (s : MqttClient) : Result A :=
  fst (m s).


(** ** JSON text: [json.dumps] with its default settings *)

(** A [float], by the shortest decimal numeral that reads back as it, the
    one [repr] prints: the value is 0.[digits] times ten to the [decpt].
    [digits] has no leading and no trailing zero, except that zero is the
    single digit 0 with [decpt] 1.  NaN is left out. *)
Inductive PyFloat : Type :=
| FFinite (neg : bool) (digits : list digit) (decpt : Z)
| FInf (neg : bool).

(** The keys [json.dumps] accepts in a dict. *)
Inductive PyKey : Type :=
| KStr (s : string)
| KInt (z : Z)
| KFloat (f : PyFloat)
| KBool (b : bool)
| KNone.

(** The objects [json.dumps] accepts; a dict keeps its insertion order. *)
#[warnings="-register-all"]
Inductive PyObj : Type :=
| PNone
| PBool (b : bool)
| PInt (z : Z)
| PFloat (f : PyFloat)
| PStr (s : string)
| PList (l : list PyObj)
| PDict (d : list (PyKey * PyObj)).

(** The exponent of [repr], printed by [%+.02d]. *)
Definition exp_str (e : Z) : string :=
  let ds := digits_of_N (Z.abs_N e) in
  (if (e <? 0)%Z then "-" else "+")
  ++ str_of_digits (match ds with [d] => [d0; d] | _ => ds end).

(** [float.__repr__] of a finite number without its sign: exponent form
    when [decpt <= -4] or [decpt > 16], else positional with at least one
    digit after the point. *)
Definition float_repr_abs (digits : list digit) (decpt : Z) : string :=
  if ((decpt <=? -4) || (16 <? decpt))%Z then
    match digits with
    | [] => EmptyString
    | [d] => str_of_digits [d] ++ "e" ++ exp_str (decpt - 1)
    | d :: rest =>
        str_of_digits [d] ++ "." ++ str_of_digits rest
        ++ "e" ++ exp_str (decpt - 1)
    end
  else if (decpt <=? 0)%Z then
    "0." ++ str_of_digits (repeat d0 (Z.to_nat (- decpt)) ++ digits)
  else
    let k := Z.to_nat decpt in
    if (k <? length digits)%nat then
      str_of_digits (firstn k digits) ++ "." ++ str_of_digits (skipn k digits)
    else
      str_of_digits (digits ++ repeat d0 (k - length digits)) ++ ".0".

Definition float_str (f : PyFloat) : string :=
  match f with
  | FFinite neg ds e => (if neg then "-" else "") ++ float_repr_abs ds e
  | FInf false => "Infinity"
  | FInf true => "-Infinity"
  end.

(** One character of a string, escaped as [ensure_ascii] does. *)
Definition json_chr (c : ascii) : string :=
  if Ascii.eqb c dquote then String "\"%char (String dquote EmptyString)
  else if Ascii.eqb c "\"%char then "\\"
  else if Ascii.eqb c "010"%char then "\n"
  else if Ascii.eqb c "013"%char then "\r"
  else if Ascii.eqb c "009"%char then "\t"
  else if Ascii.eqb c "008"%char then "\b"
  else if Ascii.eqb c "012"%char then "\f"
  else if ((32 <=? N_of_ascii c) && (N_of_ascii c <=? 126))%N
       then String c EmptyString
  else "\u00" ++ hex2 c.

Fixpoint json_str_body (s : string) : string :=
  match s with
  | EmptyString => EmptyString
  | String a s' => json_chr a ++ json_str_body s'
  end.

Definition json_str (s : string) : string :=
  String dquote (json_str_body s ++ String dquote EmptyString).

(** A key becomes a string before it is written. *)
Definition key_str (k : PyKey) : string :=
  match k with
  | KStr s => s
  | KInt z => str_of_Z z
  | KFloat f => float_str f
  | KBool true => "true"
  | KBool false => "false"
  | KNone => "null"
  end.

(** The text [json.dumps(o)] returns, when it returns. *)
Fixpoint json_dumps (o : PyObj) : string :=
  match o with
  | PNone => "null"
  | PBool true => "true"
  | PBool false => "false"
  | PInt z => str_of_Z z
  | PFloat f => float_str f
  | PStr s => json_str s
  | PList l =>
      "[" ++ (fix items (l : list PyObj) : string :=
                match l with
                | [] => EmptyString
                | x :: l' =>
                    json_dumps x
                    ++ match l' with [] => EmptyString | _ => ", " ++ items l' end
                end) l ++ "]"
  | PDict d =>
      "{" ++ (fix items (d : list (PyKey * PyObj)) : string :=
                match d with
                | [] => EmptyString
                | (k, v) :: d' =>
                    json_str (key_str k) ++ ": " ++ json_dumps v
                    ++ match d' with [] => EmptyString | _ => ", " ++ items d' end
                end) d ++ "}"
  end.

(** The items of a dict as [json_dumps] writes them. *)
Fixpoint json_items (d : list (PyKey * PyObj)) : string :=
  match d with
  | [] => EmptyString
  | (k, v) :: d' =>
      json_str (key_str k) ++ ": " ++ json_dumps v
      ++ match d' with [] => EmptyString | _ => ", " ++ json_items d' end
  end.

(** ** Logging *)

Inductive Level : Type :=
| LvlTrace | LvlDebug | LvlInfo | LvlWarning | LvlError | LvlFatal.

(** [level.lower()] and [level.upper()] of the level a call site names. *)
Definition level_lower (l : Level) : string :=
  match l with
  | LvlTrace => "trace" | LvlDebug => "debug" | LvlInfo => "info"
  | LvlWarning => "warning" | LvlError => "error" | LvlFatal => "fatal"
  end.

Definition level_upper (l : Level) : string :=
  match l with
  | LvlTrace => "TRACE" | LvlDebug => "DEBUG" | LvlInfo => "INFO"
  | LvlWarning => "WARNING" | LvlError => "ERROR" | LvlFatal => "FATAL"
  end.

(** [levels.get(name, levels["info"])]. *)
Definition levels_get (name : string) : Z :=
  if String.eqb name "trace" then -1
  else if String.eqb name "debug" then 0
  else if String.eqb name "info" then 1
  else if String.eqb name "warning" then 2
  else if String.eqb name "error" then 3
  else if String.eqb name "fatal" then 4
  else 1.

(** Whether an instance at verbosity [configured] prints level [l]. *)
Definition log_enabled (configured : string) (l : Level) : bool :=
  (levels_get configured <=? levels_get (level_lower l))%Z.

Definition log_line (l : Level) (message : string) : string :=
  "[" ++ level_upper l ++ "] MQTT: " ++ message.

Definition _log (l : Level) (message : string) : M unit :=
  fun s =>
    if log_enabled (log_level s) l
    then (Return tt, with_stdout (stdout s ++ [log_line l message]) s)
    else (Return tt, s).

(** ** The class [MqttClient] *)

(** The arguments of [publish_sensor_discovery]; an argument left at its
    default is [None]. *)
Record Descriptor : Type := mkDescriptor {
  sensor_type_slug : string;
  sensor_name : string;
  device_class : option string;
  unit_of_measurement : option string;
  icon : option string;
  value_template : option string;
  entity_category : option string;
  unique_id_suffix : option string;
  state_class : option string
}.

(** [device_info_dict] as the object [json.dumps] receives. *)
Definition device_obj (d : DeviceInfo) : PyObj :=
  PDict [ (KStr "identifiers", PList (map PStr (identifiers d)));
          (KStr "name", PStr (name d));
          (KStr "model", PStr (model d));
          (KStr "manufacturer", PStr (manufacturer d)) ].

(** [device_info_dict] as an f-string prints it. *)
Definition device_repr (d : DeviceInfo) : string :=
  "{'identifiers': " ++ repr_list (identifiers d)
  ++ ", 'name': " ++ repr_str (name d)
  ++ ", 'model': " ++ repr_str (model d)
  ++ ", 'manufacturer': " ++ repr_str (manufacturer d) ++ "}".

(** An optional entry of a discovery payload: [if v: payload[key] = v]. *)
Definition optional_entry (key : string) (v : option string)
  : list (PyKey * PyObj) :=
  match v with
  | Some s => if str_truthy s then [(KStr key, PStr s)] else []
  | None => []
  end.

(** [x if x else ''] for the suffix. *)
Definition suffix_or_empty (o : option string) : string := opt_or o "".

(** The derivation of the identifier in [set_device_info]. *)
Definition sanitized_ip (ip_address : option string) : string :=
  match ip_address with
  | Some a =>
      if str_truthy a then str_replace "."%char "_"%char a else "default_ip"
  | None => "default_ip"
  end.

Definition device_identifier (ip_address : option string) : string :=
  "idrac_controller_" ++ sanitized_ip ip_address ++ "_device".

Definition make_device_info (manufacturer model ip_address : option string)
  : DeviceInfo :=
  mkDeviceInfo [device_identifier ip_address]
               ("iDRAC Controller (" ++ opt_or ip_address "N/A" ++ ")")
               (opt_or model "HA iDRAC Controller")
               (opt_or manufacturer "HA Add-on").

(** [d['identifiers'][0]]; an empty list raises [IndexError]. *)
Definition first_identifier (d : DeviceInfo) : M string :=
  match identifiers d with
  | x :: _ => ret x
  | [] => raise (Exception "list index out of range")
  end.

Definition status_topic : string := "ha_idrac_controller/status".

Section Transport.

(** What the paho client answers: to a call that returns nothing, an
    exception or none; to [publish], an exception or the message info.
    Both may depend on the calls made before. *)
Variable paho_reply : list PahoCall -> PahoCall -> option PyExc.
Variable paho_publish_reply :
  list PahoCall -> Message -> Result MQTTMessageInfo.

(** The exception [json.dumps] raises on an object, or none.  The objects
    the class builds itself hold [str] only and are always written; an
    object of a caller may hold an [int] of more digits than the
    interpreter converts, on which [json.dumps] raises [ValueError]. *)
Variable json_dumps_raises : PyObj -> option PyExc.

(** The result codes with which [client.disconnect()] calls
    [on_disconnect] back before it returns, given the calls made before:
    paho delivers the callback from within the call when the network loop
    is stopped. *)
Variable paho_disconnect_callbacks : list PahoCall -> list Z.

Definition call_client (c : PahoCall) : M unit :=
  fun s =>
    let s' := with_client (client s ++ [c]) s in
    match paho_reply (client s) c with
    | None => (Return tt, s')
    | Some e => (Raise e, s')
    end.

Definition client_publish (m : Message) : M MQTTMessageInfo :=
  fun s =>
    (paho_publish_reply (client s) m,
     with_client (client s ++ [paho_publish m]) s).

Definition of_result {A} (r : Result A) : M A := fun s => (r, s).

(** [json.dumps(o)] on an object handed in by a caller. *)
Definition json_dumps_call (o : PyObj) : M string :=
  match json_dumps_raises o with
  | Some e => raise e
  | None => ret (json_dumps o)
  end.

Definition configure_broker (host : string) (port_arg : Z)
           (user pass log_level_arg : string) : M unit :=
  modify (with_broker host port_arg user pass (str_lower log_level_arg)) ;;
  if str_truthy user then call_client (username_pw_set user pass)
  else ret tt.

Definition set_device_info (manufacturer model ip_address : option string)
  : M unit :=
  let d := make_device_info manufacturer model ip_address in
  modify (with_device_info (Some d)) ;;
  _log LvlInfo ("Device info for MQTT discovery set to: " ++ device_repr d).

Definition publish (t p : string) (retain_arg : bool) (qos_arg : Z)
  : M PyVal :=
  connected <- get is_connected ;;
  if connected then
    try_except
      (msg_info <- client_publish (mkMessage t p qos_arg retain_arg) ;;
       (if negb (info_rc msg_info =? MQTT_ERR_SUCCESS)%Z
        then _log LvlWarning
               ("Failed to enqueue message for topic " ++ t
                ++ ". Error code: " ++ str_of_Z (info_rc msg_info))
        else ret tt) ;;
       b <- of_result (info_is_published msg_info) ;;
       ret (PyBool b))
      (fun e =>
         _log LvlError ("Failed to publish to " ++ t ++ ": " ++ exc_str e) ;;
         ret (PyBool false))
  else
    _log LvlWarning ("Not connected. Cannot publish to " ++ t ++ ".") ;;
    ret (PyBool false).

(** The topics and the payload [publish_sensor_discovery] builds. *)
Definition config_topic_slug_part (x : Descriptor) : string :=
  sensor_type_slug x ++ suffix_or_empty (unique_id_suffix x).

Definition config_topic (node_id : string) (x : Descriptor) : string :=
  "homeassistant/sensor/" ++ node_id ++ "/" ++ config_topic_slug_part x
  ++ "/config".

Definition state_topic_base (node_id : string) : string :=
  "ha_idrac_controller/sensor/" ++ node_id.

Definition base_unique_id (node_id : string) (x : Descriptor) : string :=
  let base := node_id ++ "_" ++ sensor_type_slug x in
  match unique_id_suffix x with
  | Some sfx => if str_truthy sfx then base ++ "_" ++ sfx else base
  | None => base
  end.

Definition discovery_payload (d : DeviceInfo) (node_id : string)
           (x : Descriptor) : PyObj :=
  PDict ([ (KStr "name", PStr (sensor_name x));
           (KStr "state_topic",
            PStr (state_topic_base node_id ++ "/"
                  ++ config_topic_slug_part x ++ "/state"));
           (KStr "unique_id", PStr (base_unique_id node_id x));
           (KStr "device", device_obj d);
           (KStr "availability_topic", PStr status_topic);
           (KStr "payload_available", PStr "online");
           (KStr "payload_not_available", PStr "offline") ]
         ++ optional_entry "device_class" (device_class x)
         ++ optional_entry "unit_of_measurement" (unit_of_measurement x)
         ++ optional_entry "icon" (icon x)
         ++ optional_entry "value_template" (value_template x)
         ++ optional_entry "entity_category" (entity_category x)
         ++ optional_entry "state_class" (state_class x)).

Definition publish_sensor_discovery (x : Descriptor) : M PyVal :=
  info <- get device_info_dict ;;
  match info with
  | None =>
      _log LvlWarning ("Device info not set. Cannot publish discovery for "
                       ++ sensor_name x ++ ".") ;;
      ret PyNone
  | Some d =>
      node_id <- first_identifier d ;;
      publish (config_topic node_id x)
              (json_dumps (discovery_payload d node_id x)) true 0 ;;
      _log LvlDebug
           ("Published discovery for '" ++ sensor_name x
            ++ "' (unique_id: " ++ base_unique_id node_id x
            ++ ") on topic " ++ config_topic node_id x) ;;
      ret PyNone
  end.

(** The five entities of [publish_static_sensor_discoveries]. *)
Definition degrees_celsius : string := String "176"%char "C".

Definition inlet_temp : Descriptor :=
  mkDescriptor "inlet_temp" "Inlet Temperature" (Some "temperature")
    (Some degrees_celsius) None
    (Some "{{ value_json.temperature | round(1) }}") None None None.

Definition exhaust_temp : Descriptor :=
  mkDescriptor "exhaust_temp" "Exhaust Temperature" (Some "temperature")
    (Some degrees_celsius) None
    (Some "{{ value_json.temperature | round(1) }}") None None None.

Definition target_fan_speed : Descriptor :=
  mkDescriptor "target_fan_speed" "Target Fan Speed" None
    (Some "%") (Some "mdi:fan-chevron-up")
    (Some "{{ value_json.speed if value_json.speed is not none else 'Auto' }}")
    None None None.

Definition hottest_cpu_temp : Descriptor :=
  mkDescriptor "hottest_cpu_temp" "Hottest CPU Temp" (Some "temperature")
    (Some degrees_celsius) None
    (Some "{{ value_json.temperature | round(1) }}") None None None.

Definition power_consumption : Descriptor :=
  mkDescriptor "power_consumption" "Power Consumption" (Some "power")
    (Some "W") (Some "mdi:flash")
    (Some "{{ value_json.power | round(0) }}") None None
    (Some "measurement").

Definition publish_static_sensor_discoveries : M PyVal :=
  connected <- get is_connected ;;
  info <- get device_info_dict ;;
  match connected, info with
  | true, Some _ =>
      _log LvlInfo "Publishing static sensor discovery messages..." ;;
      publish_sensor_discovery inlet_temp ;;
      publish_sensor_discovery exhaust_temp ;;
      publish_sensor_discovery target_fan_speed ;;
      publish_sensor_discovery hottest_cpu_temp ;;
      publish_sensor_discovery power_consumption ;;
      ret PyNone
  | _, _ =>
      _log LvlWarning
        "MQTT not connected or device_info not set, skipping static discoveries." ;;
      ret PyNone
  end.

(** The argument [json.dumps(value_dict)] is evaluated before [publish]
    is entered and outside any [try]: what it raises reaches the caller.
    The method has no [return] after the call: it returns [None]. *)
Definition publish_sensor_state (slug : string) (value_dict : PyObj)
           (suffix : option string) : M PyVal :=
  info <- get device_info_dict ;;
  match info with
  | None =>
      _log LvlWarning "Device info not set. Cannot publish sensor state." ;;
      ret PyNone
  | Some d =>
      node_id <- first_identifier d ;;
      payload_text <- json_dumps_call value_dict ;;
      publish (state_topic_base node_id ++ "/" ++ slug
               ++ suffix_or_empty suffix ++ "/state")
              payload_text false 0 ;;
      ret PyNone
  end.

(** The connectivity entity announced by [on_connect]. *)
Definition status_config_topic (node_id : string) : string :=
  "homeassistant/binary_sensor/idrac_controller_" ++ node_id
  ++ "/status/config".

Definition status_config_payload (d : DeviceInfo) (node_id : string)
  : PyObj :=
  PDict [ (KStr "name", PStr "iDRAC Controller Connectivity");
          (KStr "state_topic", PStr status_topic);
          (KStr "unique_id",
           PStr ("idrac_controller_" ++ node_id ++ "_connectivity"));
          (KStr "device_class", PStr "connectivity");
          (KStr "payload_on", PStr "online");
          (KStr "payload_off", PStr "offline");
          (KStr "device", device_obj d) ].

Definition broker_str (s : MqttClient) : string :=
  broker_address s ++ ":" ++ str_of_Z (port s).

(** The connect callback of the transport; of its arguments only the
    result code [rc] is read. *)
Definition on_connect (rc : Z) : M unit :=
  if (rc =? 0)%Z then
    broker <- get broker_str ;;
    _log LvlInfo ("Connected successfully to broker " ++ broker) ;;
    modify (with_is_connected true) ;;
    info <- get device_info_dict ;;
    match info with
    | Some d =>
        node_id <- first_identifier d ;;
        publish (status_config_topic node_id)
                (json_dumps (status_config_payload d node_id)) true 0 ;;
        ret tt
    | None => ret tt
    end ;;
    publish status_topic "online" true 0 ;;
    publish_static_sensor_discoveries ;;
    ret tt
  else
    _log LvlError ("Connection failed with code " ++ str_of_Z rc) ;;
    modify (with_is_connected false).

(** The disconnect callback of the transport. *)
Definition on_disconnect (rc : Z) : M unit :=
  _log LvlInfo ("Disconnected from broker with result code "
                ++ str_of_Z rc ++ ".") ;;
  modify (with_is_connected false).

(** The body of the [try] in [connect]. *)
Definition connect_attempt : M unit :=
  host <- get broker_address ;;
  p <- get port ;;
  call_client (will_set (mkMessage status_topic "offline" 1 true)) ;;
  call_client (paho_connect host p 60) ;;
  call_client loop_start.

(** The [except] clauses of [connect], tried in the order written. *)
Definition connect_handler (e : PyExc) : M unit :=
  broker <- get broker_str ;;
  match e with
  | ConnectionRefusedError _ =>
      _log LvlError ("Connection refused by broker " ++ broker ++ ".")
  | OSError msg =>
      _log LvlError ("OS error connecting to broker " ++ broker
                     ++ " - " ++ msg)
  | Exception msg =>
      _log LvlError ("Could not connect to broker: " ++ msg)
  end.

Definition connect : M unit :=
  connected <- get is_connected ;;
  if negb connected then
    broker <- get broker_str ;;
    _log LvlInfo ("Attempting to connect to broker " ++ broker ++ "...") ;;
    try_except connect_attempt connect_handler
  else ret tt.

(** The [on_disconnect] calls the transport makes, one per result code. *)
Fixpoint run_disconnect_callbacks (rcs : list Z) : M unit :=
  match rcs with
  | [] => ret tt
  | rc :: rcs' => on_disconnect rc ;; run_disconnect_callbacks rcs'
  end.

(** [client.disconnect()]: the call is recorded; when it returns, it has
    called [on_disconnect] back first, as the oracle says.  A call that
    raises is taken to raise before any callback. *)
Definition client_disconnect : M unit :=
  history <- get client ;;
  call_client paho_disconnect ;;
  run_disconnect_callbacks (paho_disconnect_callbacks history).

Definition disconnect : M unit :=
  connected <- get is_connected ;;
  if connected then
    call_client loop_stop ;;
    client_disconnect ;;
    _log LvlInfo "Gracefully disconnected." ;;
    modify (with_is_connected false)
  else ret tt.

End Transport.

(** ** Reading JSON text back: [json.loads] *)

(** What a subscriber does with a payload.  The decoder is modelled on
    the texts that hold a scalar or an object of scalars; [None] stands
    for an error of [json.loads] and for a text outside that fragment (a
    nested value, an escape for a code point above 255, NaN).  A numeral
    is read whatever its length: the limit of the interpreter on the
    digits of an [int] is on the side of the writer, where [json.dumps]
    raises before any text exists. *)

Definition digit_of_chr (c : ascii) : option digit :=
  if Ascii.eqb c "0" then Some d0 else if Ascii.eqb c "1" then Some d1
  else if Ascii.eqb c "2" then Some d2 else if Ascii.eqb c "3" then Some d3
  else if Ascii.eqb c "4" then Some d4 else if Ascii.eqb c "5" then Some d5
  else if Ascii.eqb c "6" then Some d6 else if Ascii.eqb c "7" then Some d7
  else if Ascii.eqb c "8" then Some d8 else if Ascii.eqb c "9" then Some d9
  else None.

Definition is_zero (d : digit) : bool :=
  match d with d0 => true | _ => false end.

Definition digit_val (d : digit) : N :=
  match d with
  | d0 => 0 | d1 => 1 | d2 => 2 | d3 => 3 | d4 => 4
  | d5 => 5 | d6 => 6 | d7 => 7 | d8 => 8 | d9 => 9
  end%N.

(** The number a sequence of digits writes. *)
Definition N_of_digits (ds : list digit) : N :=
  fold_left (fun acc d => (10 * acc + digit_val d)%N) ds 0%N.

(** The longest run of digits at the head of a text, and what follows. *)
Fixpoint span_digits (s : string) : list digit * string :=
  match s with
  | EmptyString => ([], s)
  | String c s' =>
      match digit_of_chr c with
      | Some d => let (ds, r) := span_digits s' in (d :: ds, r)
      | None => ([], s)
      end
  end.

Fixpoint drop_zeros (ds : list digit) : list digit :=
  match ds with
  | d :: ds' => if is_zero d then drop_zeros ds' else ds
  | [] => []
  end.

(** The float a numeral reads as: the digits [ipart ++ frac] with the
    point after [ipart], times ten to the [e].  For a numeral printed by
    [repr] this is the float that was printed. *)
Definition float_of_decimal (neg : bool) (ipart frac : list digit) (e : Z)
  : PyFloat :=
  let all := (ipart ++ frac)%list in
  let significant := drop_zeros all in
  let lead := (length all - length significant)%nat in
  match rev (drop_zeros (rev significant)) with
  | [] => FFinite neg [d0] 1
  | ds => FFinite neg ds (Z.of_nat (length ipart) + e - Z.of_nat lead)
  end.

(** [(\.[0-9]+)?] *)
Definition scan_frac (s : string) : option (list digit) * string :=
  match s with
  | String "." r =>
      match span_digits r with
      | ([], _) => (None, s)
      | (ds, r') => (Some ds, r')
      end
  | _ => (None, s)
  end.

(** [([eE][-+]?[0-9]+)?] *)
Definition scan_exp (s : string) : option Z * string :=
  match s with
  | String c r =>
      if Ascii.eqb c "e" || Ascii.eqb c "E" then
        let (neg, r1) :=
          match r with
          | String "-" r' => (true, r')
          | String "+" r' => (false, r')
          | _ => (false, r)
          end in
        match span_digits r1 with
        | ([], _) => (None, s)
        | (ds, r2) =>
            (Some (if neg then (- Z.of_N (N_of_digits ds))%Z
                   else Z.of_N (N_of_digits ds)), r2)
        end
      else (None, s)
  | EmptyString => (None, s)
  end.

(** A numeral, as [NUMBER_RE] matches it: an [int] when it has neither a
    fraction nor an exponent, else a [float]. *)
Definition scan_number (s : string) : option (PyObj * string) :=
  let (neg, s1) :=
    match s with
    | String "-" r => (true, r)
    | _ => (false, s)
    end in
  match s1 with
  | String c r =>
      match digit_of_chr c with
      | Some d =>
          let (ipart, s2) :=
            if is_zero d then ([d0], r) else span_digits s1 in
          let (frac, s3) := scan_frac s2 in
          let (ex, s4) := scan_exp s3 in
          match frac, ex with
          | None, None =>
              Some (PInt (if neg then (- Z.of_N (N_of_digits ipart))%Z
                          else Z.of_N (N_of_digits ipart)), s4)
          | _, _ =>
              Some (PFloat (float_of_decimal neg ipart
                              (match frac with Some f => f | None => [] end)
                              (match ex with Some e => e | None => 0%Z end)),
                    s4)
          end
      | None => None
      end
  | EmptyString => None
  end.

Definition hex_val (c : ascii) : option N :=
  let n := N_of_ascii c in
  if ((48 <=? n) && (n <=? 57))%N then Some (n - 48)%N
  else if ((97 <=? n) && (n <=? 102))%N then Some (n - 87)%N
  else if ((65 <=? n) && (n <=? 70))%N then Some (n - 55)%N
  else None.

(** The character a [\uXXXX] escape names, when it is below 256. *)
Definition unicode_escape (h1 h2 h3 h4 : ascii) : option ascii :=
  match hex_val h1, hex_val h2, hex_val h3, hex_val h4 with
  | Some a, Some b, Some c, Some d =>
      let n := (((a * 16 + b) * 16 + c) * 16 + d)%N in
      if (n <? 256)%N then Some (ascii_of_N n) else None
  | _, _, _, _ => None
  end.

(** The character a one-letter escape names. *)
Definition simple_escape (c : ascii) : option ascii :=
  if Ascii.eqb c dquote then Some dquote
  else if Ascii.eqb c "\" then Some "\"%char
  else if Ascii.eqb c "/" then Some "/"%char
  else if Ascii.eqb c "b" then Some "008"%char
  else if Ascii.eqb c "f" then Some "012"%char
  else if Ascii.eqb c "n" then Some "010"%char
  else if Ascii.eqb c "r" then Some "013"%char
  else if Ascii.eqb c "t" then Some "009"%char
  else None.

(** A string from just after its opening quote: the text it holds and
    what follows the closing quote.  A raw control character is an
    error. *)
Fixpoint scan_string (s : string) : option (string * string) :=
  match s with
  | EmptyString => None
  | String c s' =>
      if Ascii.eqb c dquote then Some (EmptyString, s')
      else if Ascii.eqb c "\" then
        match s' with
        | String e s'' =>
            if Ascii.eqb e "u" then
              match s'' with
              | String h1 (String h2 (String h3 (String h4 rest))) =>
                  match unicode_escape h1 h2 h3 h4, scan_string rest with
                  | Some a, Some (v, r) => Some (String a v, r)
                  | _, _ => None
                  end
              | _ => None
              end
            else
              match simple_escape e, scan_string s'' with
              | Some a, Some (v, r) => Some (String a v, r)
              | _, _ => None
              end
        | EmptyString => None
        end
      else if (N_of_ascii c <? 32)%N then None
      else
        match scan_string s' with
        | Some (v, r) => Some (String c v, r)
        | None => None
        end
  end.

Definition is_ws (c : ascii) : bool :=
  Ascii.eqb c " " || Ascii.eqb c "009" || Ascii.eqb c "010"
  || Ascii.eqb c "013".

Fixpoint skip_ws (s : string) : string :=
  match s with
  | String c s' => if is_ws c then skip_ws s' else s
  | EmptyString => s
  end.

(** [s.startswith(p)], with what follows the prefix. *)
Fixpoint strip_prefix (p s : string) : option string :=
  match p, s with
  | EmptyString, _ => Some s
  | String a p', String b s' =>
      if Ascii.eqb a b then strip_prefix p' s' else None
  | String _ _, EmptyString => None
  end.

(** A scalar value, in the order [scan_once] tries the cases. *)
Definition scan_scalar (s : string) : option (PyObj * string) :=
  match s with
  | String c s' =>
      if Ascii.eqb c dquote then
        match scan_string s' with
        | Some (v, r) => Some (PStr v, r)
        | None => None
        end
      else
        match strip_prefix "null" s, strip_prefix "true" s,
              strip_prefix "false" s with
        | Some r, _, _ => Some (PNone, r)
        | _, Some r, _ => Some (PBool true, r)
        | _, _, Some r => Some (PBool false, r)
        | None, None, None =>
            match scan_number s with
            | Some res => Some res
            | None =>
                match strip_prefix "Infinity" s, strip_prefix "-Infinity" s with
                | Some r, _ => Some (PFloat (FInf false), r)
                | _, Some r => Some (PFloat (FInf true), r)
                | None, None => None
                end
            end
        end
  | EmptyString => None
  end.

(** The members of an object from its first key on: each is a string, a
    colon, a scalar, then a comma or the closing brace, white space
    allowed around each.  [fuel] bounds the number of members. *)
Fixpoint scan_members (fuel : nat) (s : string)
  : option (list (string * PyObj) * string) :=
  match fuel with
  | O => None
  | S fuel' =>
      match s with
      | String c s1 =>
          if Ascii.eqb c dquote then
            match scan_string s1 with
            | Some (key, s2) =>
                match skip_ws s2 with
                | String ":" s3 =>
                    match scan_scalar (skip_ws s3) with
                    | Some (v, s4) =>
                        match skip_ws s4 with
                        | String "}" s5 => Some ([(key, v)], s5)
                        | String "," s5 =>
                            match scan_members fuel' (skip_ws s5) with
                            | Some (ms, s6) => Some ((key, v) :: ms, s6)
                            | None => None
                            end
                        | _ => None
                        end
                    | None => None
                    end
                | _ => None
                end
            | None => None
            end
          else None
      | EmptyString => None
      end
  end.

(** [d[k] = v] for a dict whose keys are strings: a key already there
    keeps its place. *)
Fixpoint dict_set (k : string) (v : PyObj) (d : list (string * PyObj))
  : list (string * PyObj) :=
  match d with
  | [] => [(k, v)]
  | (k', v') :: d' =>
      if String.eqb k k' then (k', v) :: d' else (k', v') :: dict_set k v d'
  end.

(** [dict(pairs)]. *)
Definition dict_of_pairs (pairs : list (string * PyObj))
  : list (string * PyObj) :=
  fold_left (fun d kv => dict_set (fst kv) (snd kv) d) pairs [].

(** The dict with the given string keys, in the given order. *)
Definition str_dict (items : list (string * PyObj)) : PyObj :=
  PDict (map (fun kv => (KStr (fst kv), snd kv)) items).

Definition json_loads (s : string) : option PyObj :=
  match skip_ws s with
  | String "{" s1 =>
      match skip_ws s1 with
      | String "}" s2 =>
          match skip_ws s2 with
          | EmptyString => Some (PDict [])
          | _ => None
          end
      | s2 =>
          match scan_members (String.length s2) s2 with
          | Some (pairs, s3) =>
              match skip_ws s3 with
              | EmptyString => Some (str_dict (dict_of_pairs pairs))
              | _ => None
              end
          | None => None
          end
      end
  | s1 =>
      match scan_scalar s1 with
      | Some (v, s2) =>
          match skip_ws s2 with
          | EmptyString => Some v
          | _ => None
          end
      | None => None
      end
  end.

(** *** The values that are read back as they were written *)

Definition float_wf (f : PyFloat) : bool :=
  match f with
  | FInf _ => true
  | FFinite _ [] _ => false
  | FFinite _ [d] e => if is_zero d then (e =? 1)%Z else true
  | FFinite _ (d :: ds) _ => negb (is_zero d) && negb (is_zero (last ds d0))
  end.

Definition is_scalar (v : PyObj) : bool :=
  match v with
  | PNone | PBool _ | PInt _ | PStr _ => true
  | PFloat f => float_wf f
  | PList _ | PDict _ => false
  end.

Fixpoint keys_distinct (keys : list string) : bool :=
  match keys with
  | [] => true
  | k :: keys' => negb (existsb (String.eqb k) keys') && keys_distinct keys'
  end.

(** The items of a flat key-value structure whose keys are strings: the
    keys differ from one another, as in any dict, and each value is a
    scalar, a float being in the form [repr] prints. *)
Definition flat_items (items : list (string * PyObj)) : bool :=
  forallb (fun kv => is_scalar (snd kv)) items
  && keys_distinct (map fst items).

(** ** Reading the effects of a method *)

(** The instance after [calls] more calls on the transport and [out] more
    printed lines, every field of [__init__] as before. *)
Definition advance (calls : list PahoCall) (out : list string)
           (s : MqttClient) : MqttClient :=
  with_stdout (stdout s ++ out) (with_client (client s ++ calls) s).

(** The lines one [_log] call prints. *)
Definition log_out (s : MqttClient) (l : Level) (message : string)
  : list string :=
  if log_enabled (log_level s) l then [log_line l message] else [].

(** A transport that accepts every call and delivers every message. *)
Definition ok_reply (h : list PahoCall) (c : PahoCall) : option PyExc := None.

Definition ok_publish (h : list PahoCall) (m : Message)
  : Result MQTTMessageInfo :=
  Return (mkInfo MQTT_ERR_SUCCESS (Return true)).

(** A transport whose broker refuses the connection. *)
Definition refusing_reply (h : list PahoCall) (c : PahoCall)
  : option PyExc :=
  match c with
  | paho_connect _ _ _ =>
      Some (ConnectionRefusedError "[Errno 111] Connection refused")
  | _ => None
  end.

(** A fresh instance whose device identity was set for 192.168.1.5. *)
Definition sample_identity : MqttClient :=
  state_after (set_device_info (Some "Dell") (Some "R720")
                               (Some "192.168.1.5"))
              (init default_client_id).

(** The same instance once the transport reported a successful connect. *)
Definition sample_connected : MqttClient :=
  state_after (on_connect ok_publish 0) sample_identity.

(** The messages of the connect callback. *)
Definition online_message : Message := mkMessage status_topic "online" 0 true.

Definition status_config_message (d : DeviceInfo) (node_id : string)
  : Message :=
  mkMessage (status_config_topic node_id)
            (json_dumps (status_config_payload d node_id)) 0 true.

Definition discovery_message (d : DeviceInfo) (node_id : string)
           (x : Descriptor) : Message :=
  mkMessage (config_topic node_id x)
            (json_dumps (discovery_payload d node_id x)) 0 true.

(** The identifier as the specification words it: every character of the
    address that is not a letter or a digit becomes an underscore. *)
Definition is_alnum (c : ascii) : bool :=
  let n := N_of_ascii c in
  ((48 <=? n) && (n <=? 57) || (65 <=? n) && (n <=? 90)
   || (97 <=? n) && (n <=? 122))%N.

Fixpoint spec_sanitize (s : string) : string :=
  match s with
  | EmptyString => EmptyString
  | String a s' => String (if is_alnum a then a else "_"%char) (spec_sanitize s')
  end.

Definition spec_device_identifier (ip_address : option string) : string :=
  "idrac_controller_"
  ++ match ip_address with
     | Some (String c a) => spec_sanitize (String c a)
     | _ => "default_ip"
     end
  ++ "_device".

(** A method that touches nothing but the transport and the output: it
    leaves every field of [__init__], the connection state among them. *)
Definition frames {A} (m : M A) : Prop :=
  forall s, exists r calls out, m s = (r, advance calls out s).

(** ** The texts [json.dumps] writes, in the terms of the decoder *)

(** A text that does not go on with a digit. *)
Definition no_digit_ahead (s : string) : bool :=
  match s with
  | String c _ => match digit_of_chr c with Some _ => false | None => true end
  | EmptyString => true
  end.

(** A numeral without a needless leading zero. *)
Definition normal (ds : list digit) : bool :=
  match ds with
  | [] => false
  | [_] => true
  | d :: _ => negb (is_zero d)
  end.

(** What follows a value inside an object, or the end of the text. *)
Definition delimited (s : string) : bool :=
  match s with
  | String c _ => Ascii.eqb c "," || Ascii.eqb c "}"
  | EmptyString => true
  end.

(** The fraction, the exponent and its value, as a numeral has them. *)
Definition frac_text (fr : option (list digit)) : string :=
  match fr with
  | Some f => "." ++ str_of_digits f
  | None => EmptyString
  end.

Definition exp_text (ex : option (bool * list digit)) : string :=
  match ex with
  | Some (neg, ds) => "e" ++ (if neg then "-" else "+") ++ str_of_digits ds
  | None => EmptyString
  end.

Definition exp_value (ex : option (bool * list digit)) : option Z :=
  match ex with
  | Some (true, ds) => Some (- Z.of_N (N_of_digits ds))%Z
  | Some (false, ds) => Some (Z.of_N (N_of_digits ds))
  | None => None
  end.

(** The members of a dict with string keys, as [json_dumps] writes them. *)
Definition items_text (items : list (string * PyObj)) : string :=
  json_items (map (fun kv => (KStr (fst kv), snd kv)) items).

(** ** Vocabulary of the further properties *)

(** The last will [connect] registers. *)
Definition will_message : Message :=
  mkMessage "ha_idrac_controller/status" "offline" 1 true.

(** The calls of one [connect] attempt on a transport whose answers are
    [reply]: each call is made only if the one before raised nothing. *)
Definition connect_calls (reply : list PahoCall -> PahoCall -> option PyExc)
           (s : MqttClient) : list PahoCall :=
  let will := will_set will_message in
  let open := paho_connect (broker_address s) (port s) 60 in
  match reply (client s) will with
  | Some _ => [will]
  | None =>
      match reply (client s ++ [will])%list open with
      | Some _ => [will; open]
      | None => [will; open; loop_start]
      end
  end.

(** A transport whose network loop cannot be stopped. *)
Definition stuck_loop_reply (h : list PahoCall) (c : PahoCall)
  : option PyExc :=
  match c with
  | loop_stop => Some (Exception "cannot join current thread")
  | _ => None
  end.

(** A transport whose [publish] raises. *)
Definition raising_publish (h : list PahoCall) (m : Message)
  : Result MQTTMessageInfo :=
  Raise (Exception "payload too large").

(** The names [_log] knows. *)
Definition known_level (name : string) : bool :=
  existsb (String.eqb name)
          ["trace"; "debug"; "info"; "warning"; "error"; "fatal"].

(** A text of printable ASCII characters only (space to tilde). *)
Fixpoint printable_ascii (s : string) : bool :=
  match s with
  | EmptyString => true
  | String c s' =>
      ((32 <=? N_of_ascii c) && (N_of_ascii c <=? 126))%N
      && printable_ascii s'
  end.

(** A connected instance that was never given a device identity. *)
Definition sample_anonymous : MqttClient :=
  state_after (on_connect ok_publish 0) (init default_client_id).

(** ** The interpreter's limit on printing an [int] *)

(** [sys.int_info.default_max_str_digits]: since Python 3.11 the
    conversion of an [int] of more decimal digits to text raises
    [ValueError]. *)
Definition int_max_str_digits : nat := 4300.

Definition int_digits (z : Z) : nat := length (digits_of_N (Z.abs_N z)).

Definition oversize (z : Z) : bool :=
  (int_max_str_digits <? int_digits z)%nat.

Definition key_oversize (k : PyKey) : bool :=
  match k with
  | KInt z => oversize z
  | _ => false
  end.

(** An [int] over the limit among the values or the keys, at any depth. *)
Fixpoint has_oversize_int (o : PyObj) : bool :=
  match o with
  | PInt z => oversize z
  | PList l => existsb has_oversize_int l
  | PDict d =>
      existsb (fun kv => let '(k, v) := kv in
                         key_oversize k || has_oversize_int v) d
  | _ => false
  end.

(** What [json.dumps] raises under the default limit. *)
Definition int_limit_raises (o : PyObj) : option PyExc :=
  if has_oversize_int o
  then Some (Exception
    "Exceeds the limit (4300 digits) for integer string conversion; use sys.set_int_max_str_digits() to increase the limit")
  else None.

(** A reading whose value is the integer ten to the 4300, of 4301 digits. *)
Definition oversize_reading : PyObj :=
  PDict [(KStr "temperature", PInt (10 ^ 4300))].

(** ** Callbacks from within [client.disconnect()] *)

(** A transport that never calls back from within [disconnect]. *)
Definition no_callbacks (h : list PahoCall) : list Z := [].

(** paho once its network loop is stopped: [disconnect] sends the packet
    itself and reports the disconnection, code 0, before it returns. *)
Definition stopped_loop_callbacks (h : list PahoCall) : list Z := [0%Z].

(** The lines the disconnect callbacks print, one per result code. *)
Definition callback_lines (s : MqttClient) (rcs : list Z) : list string :=
  flat_map (fun rc => log_out s LvlInfo
                        ("Disconnected from broker with result code "
                         ++ str_of_Z rc ++ ".")) rcs.

(** * Properties *)

(** ** The embedding on sample inputs *)

Example str_of_Z_samples :
  map str_of_Z [1883; 0; -5]%Z = ["1883"; "0"; "-5"].
Proof. reflexivity. Qed.

Example float_str_samples :
  map float_str
      [ FFinite false [d4; d2] 2; FFinite false [d5] 0;
        FFinite false [d1] (-3); FFinite false [d1] (-4);
        FFinite true [d1; d5] 17; FFinite false [d1] 16;
        FFinite false [d0] 1; FFinite false [d4; d1; d2] 2 ]
  = [ "42.0"; "0.5"; "0.0001"; "1e-05"; "-1.5e+16"; "1000000000000000.0";
      "0.0"; "41.2" ].
Proof. reflexivity. Qed.

Example json_str_sample :
  json_str degrees_celsius = String dquote ("\u00b0C" ++ String dquote "").
Proof. reflexivity. Qed.

Example set_device_info_sample :
  stdout sample_identity
  = ["[INFO] MQTT: Device info for MQTT discovery set to: {'identifiers': ['idrac_controller_192_168_1_5_device'], 'name': 'iDRAC Controller (192.168.1.5)', 'model': 'R720', 'manufacturer': 'Dell'}"].
Proof. reflexivity. Qed.

Example log_filter_sample :
  map (log_enabled "error") [LvlDebug; LvlInfo; LvlWarning; LvlError]
  = [false; false; false; true]
  /\ map (log_enabled "verbose") [LvlDebug; LvlInfo; LvlWarning]
     = [false; true; true].
Proof. split; reflexivity. Qed.

Example json_loads_sample :
  json_loads
    (json_dumps
       (PDict [ (KStr "temperature", PFloat (FFinite false [d4; d1; d2] 2));
                (KStr "speed", PNone); (KStr "rpm", PInt 4800) ]))
  = Some
      (PDict [ (KStr "temperature", PFloat (FFinite false [d4; d1; d2] 2));
               (KStr "speed", PNone); (KStr "rpm", PInt 4800) ]).
Proof. reflexivity. Qed.

(** ** Strings *)

Lemma append_assoc (a b c : string) : ((a ++ b) ++ c = a ++ (b ++ c))%string.
Proof. induction a as [|x a IH]; simpl; [reflexivity | now rewrite IH]. Qed.

Lemma append_nil_r (a : string) : (a ++ "")%string = a.
Proof. induction a as [|x a IH]; simpl; [reflexivity | now rewrite IH]. Qed.

(** ** The monad and the frame of a method *)

Lemma bind_return {A B} (m : M A) (k : A -> M B) s a s' :
  m s = (Return a, s') -> bind m k s = k a s'.
Proof. intros E. unfold bind. now rewrite E. Qed.

Lemma bind_raise {A B} (m : M A) (k : A -> M B) s e s' :
  m s = (Raise e, s') -> bind m k s = (Raise e, s').
Proof. intros E. unfold bind. now rewrite E. Qed.

Ltac step_with H := erewrite bind_return by (apply H); cbv beta.
Ltac step_refl := erewrite bind_return by reflexivity; cbv beta.

Lemma advance_nil s : advance [] [] s = s.
Proof.
  destruct s. unfold advance, with_stdout, with_client. simpl.
  now rewrite !List.app_nil_r.
Qed.

Lemma advance_calls c s : advance c [] s = with_client (client s ++ c) s.
Proof.
  destruct s. unfold advance, with_stdout, with_client. simpl.
  now rewrite List.app_nil_r.
Qed.

Lemma advance_advance c1 o1 c2 o2 s :
  advance c2 o2 (advance c1 o1 s) = advance (c1 ++ c2) (o1 ++ o2) s.
Proof.
  unfold advance, with_stdout, with_client. simpl.
  now rewrite !List.app_assoc.
Qed.

Lemma advance_connected c o b s :
  advance c o (with_is_connected b s) = with_is_connected b (advance c o s).
Proof. reflexivity. Qed.

Lemma log_spec l message s :
  _log l message s = (Return tt, advance [] (log_out s l message) s).
Proof.
  unfold _log, log_out.
  destruct (log_enabled (log_level s) l).
  - unfold advance. f_equal. destruct s. unfold with_stdout, with_client.
    simpl. now rewrite List.app_nil_r.
  - now rewrite advance_nil.
Qed.

Lemma published_app c1 c2 :
  published (c1 ++ c2) = (published c1 ++ published c2)%list.
Proof.
  induction c1 as [|c c1 IH]; simpl; [reflexivity|].
  destruct c; simpl; now rewrite ?IH.
Qed.

Lemma published_map ms : published (map paho_publish ms) = ms.
Proof. induction ms; simpl; now rewrite ?IHms. Qed.

(** *** Frame rules *)

Lemma frames_ret {A} (a : A) : frames (ret a).
Proof. intros s. exists (Return a), [], []. now rewrite advance_nil. Qed.

Lemma frames_raise {A} e : frames (@raise A e).
Proof. intros s. exists (Raise e), [], []. now rewrite advance_nil. Qed.

Lemma frames_get {A} (f : MqttClient -> A) : frames (get f).
Proof. intros s. exists (Return (f s)), [], []. now rewrite advance_nil. Qed.

Lemma frames_log l message : frames (_log l message).
Proof. intros s. rewrite log_spec. eauto. Qed.

Lemma frames_bind {A B} (m : M A) (k : A -> M B) :
  frames m -> (forall a, frames (k a)) -> frames (bind m k).
Proof.
  intros Hm Hk s. destruct (Hm s) as (r & c & o & E).
  unfold bind. rewrite E. destruct r as [a|e].
  - destruct (Hk a (advance c o s)) as (r' & c' & o' & E').
    rewrite E', advance_advance. eauto.
  - eauto.
Qed.

Lemma frames_try {A} (m : M A) (h : PyExc -> M A) :
  frames m -> (forall e, frames (h e)) -> frames (try_except m h).
Proof.
  intros Hm Hh s. destruct (Hm s) as (r & c & o & E).
  unfold try_except. rewrite E. destruct r as [a|e].
  - eauto.
  - destruct (Hh e (advance c o s)) as (r' & c' & o' & E').
    rewrite E', advance_advance. eauto.
Qed.

Lemma frames_first_identifier d : frames (first_identifier d).
Proof.
  unfold first_identifier. destruct (identifiers d).
  - apply frames_raise.
  - apply frames_ret.
Qed.

Lemma frames_connected {A} (m : M A) s :
  frames m -> is_connected (state_after m s) = is_connected s.
Proof.
  intros H. destruct (H s) as (r & c & o & E).
  unfold state_after. now rewrite E.
Qed.

Create HintDb frame.
#[local] Hint Resolve frames_ret frames_raise frames_get frames_log
  frames_first_identifier : frame.

Ltac frame_steps :=
  repeat first
    [ progress auto with frame
    | apply frames_bind; [ | intros ? ]
    | apply frames_try; [ | intros ? ]
    | match goal with
      | |- frames (match ?x with _ => _ end) => destruct x
      end ].

(** *** The objects the class builds hold no [int] *)

Lemma no_int_in_strings l : existsb has_oversize_int (map PStr l) = false.
Proof. induction l as [|x l IH]; [reflexivity | exact IH]. Qed.

Lemma no_int_in_device_obj d : has_oversize_int (device_obj d) = false.
Proof.
  unfold device_obj. cbn [has_oversize_int existsb key_oversize orb].
  now rewrite no_int_in_strings.
Qed.

Lemma no_int_in_optional_entry key v rest :
  existsb (fun kv : PyKey * PyObj =>
             let '(k, v) := kv in key_oversize k || has_oversize_int v)
          (optional_entry key v ++ rest)
  = existsb (fun kv : PyKey * PyObj =>
               let '(k, v) := kv in key_oversize k || has_oversize_int v)
            rest.
Proof.
  unfold optional_entry. destruct v as [s|]; [|reflexivity].
  now destruct (str_truthy s).
Qed.

(** The payloads of the discoveries are written under the default limit
    of the interpreter: [json.dumps] has no [int] to convert in them. *)
Lemma built_payloads_are_written d node_id x :
  int_limit_raises (discovery_payload d node_id x) = None
  /\ int_limit_raises (status_config_payload d node_id) = None.
Proof.
  unfold int_limit_raises, discovery_payload, status_config_payload.
  cbn [has_oversize_int existsb key_oversize orb app].
  rewrite !no_int_in_device_obj. cbn [orb].
  rewrite !no_int_in_optional_entry.
  rewrite <- (List.app_nil_r (optional_entry _ _)).
  rewrite no_int_in_optional_entry. split; reflexivity.
Qed.

Section TransportFacts.

Variable paho_reply : list PahoCall -> PahoCall -> option PyExc.
Variable paho_publish_reply :
  list PahoCall -> Message -> Result MQTTMessageInfo.
Variable json_dumps_raises : PyObj -> option PyExc.
Variable paho_disconnect_callbacks : list PahoCall -> list Z.

Lemma client_publish_spec m s :
  client_publish paho_publish_reply m s
  = (paho_publish_reply (client s) m, advance [paho_publish m] [] s).
Proof. unfold client_publish. now rewrite advance_calls. Qed.

Lemma call_client_spec c s :
  call_client paho_reply c s
  = (match paho_reply (client s) c with
     | None => Return tt
     | Some e => Raise e
     end, advance [c] [] s).
Proof.
  unfold call_client. rewrite advance_calls.
  now destruct (paho_reply (client s) c).
Qed.

(** [publish] while connected: one call on the transport, whatever it
    answers, and a boolean handed back. *)
Lemma publish_connected t p r q s :
  is_connected s = true ->
  exists b out,
    publish paho_publish_reply t p r q s
    = (Return (PyBool b), advance [paho_publish (mkMessage t p q r)] out s).
Proof.
  intros Hc. unfold publish, bind, get, try_except.
  rewrite Hc, client_publish_spec.
  destruct (paho_publish_reply (client s) (mkMessage t p q r))
    as [[rc pub]|e]; cbn [info_rc info_is_published].
  - destruct (negb (rc =? MQTT_ERR_SUCCESS)%Z);
      rewrite ?log_spec; unfold of_result, ret;
      destruct pub as [b|e]; rewrite ?log_spec, ?advance_advance;
      eexists; eexists; reflexivity.
  - rewrite log_spec, advance_advance. unfold ret.
    eexists; eexists; reflexivity.
Qed.

(** [publish] while not connected: nothing reaches the transport. *)
Lemma publish_disconnected t p r q s :
  is_connected s = false ->
  publish paho_publish_reply t p r q s
  = (Return (PyBool false),
     advance [] (log_out s LvlWarning
                   ("Not connected. Cannot publish to " ++ t ++ ".")) s).
Proof.
  intros Hc. unfold publish, bind, get. rewrite Hc, log_spec.
  reflexivity.
Qed.

Lemma first_identifier_spec d node_id rest s :
  identifiers d = node_id :: rest ->
  first_identifier d s = (Return node_id, s).
Proof. intros E. unfold first_identifier. now rewrite E. Qed.

Lemma discovery_without_info x s :
  device_info_dict s = None ->
  publish_sensor_discovery paho_publish_reply x s
  = (Return PyNone,
     advance [] (log_out s LvlWarning
                   ("Device info not set. Cannot publish discovery for "
                    ++ sensor_name x ++ ".")) s).
Proof.
  intros E. unfold publish_sensor_discovery, bind, get.
  now rewrite E, log_spec.
Qed.

Lemma discovery_connected x d node_id rest s :
  device_info_dict s = Some d ->
  identifiers d = node_id :: rest ->
  is_connected s = true ->
  exists out,
    publish_sensor_discovery paho_publish_reply x s
    = (Return PyNone,
       advance [paho_publish (discovery_message d node_id x)] out s).
Proof.
  intros E Hid Hc.
  destruct (publish_connected (config_topic node_id x)
              (json_dumps (discovery_payload d node_id x)) true 0 s Hc)
    as (b & out & Hp).
  unfold publish_sensor_discovery, bind at 1, get. rewrite E.
  rewrite (bind_return _ _ _ _ _ (first_identifier_spec _ _ _ _ Hid)).
  rewrite (bind_return _ _ _ _ _ Hp).
  unfold bind, ret. rewrite log_spec, advance_advance.
  eexists. reflexivity.
Qed.

Lemma discovery_disconnected x d node_id rest s :
  device_info_dict s = Some d ->
  identifiers d = node_id :: rest ->
  is_connected s = false ->
  exists out,
    publish_sensor_discovery paho_publish_reply x s
    = (Return PyNone, advance [] out s).
Proof.
  intros E Hid Hc.
  unfold publish_sensor_discovery, bind at 1, get. rewrite E.
  rewrite (bind_return _ _ _ _ _ (first_identifier_spec _ _ _ _ Hid)).
  rewrite (bind_return _ _ _ _ _
             (publish_disconnected (config_topic node_id x) _ true 0 s Hc)).
  unfold bind, ret. rewrite log_spec, advance_advance.
  eexists. reflexivity.
Qed.

Lemma json_dumps_call_returns v s :
  json_dumps_raises v = None ->
  json_dumps_call json_dumps_raises v s = (Return (json_dumps v), s).
Proof. intros H. unfold json_dumps_call. now rewrite H. Qed.

Lemma json_dumps_call_raises v e s :
  json_dumps_raises v = Some e ->
  json_dumps_call json_dumps_raises v s = (Raise e, s).
Proof. intros H. unfold json_dumps_call. now rewrite H. Qed.

Lemma state_connected slug v sfx d node_id rest s :
  device_info_dict s = Some d ->
  identifiers d = node_id :: rest ->
  is_connected s = true ->
  json_dumps_raises v = None ->
  exists out,
    publish_sensor_state paho_publish_reply json_dumps_raises slug v sfx s
    = (Return PyNone,
       advance [paho_publish
                  (mkMessage (state_topic_base node_id ++ "/" ++ slug
                              ++ suffix_or_empty sfx ++ "/state")
                             (json_dumps v) 0 false)] out s).
Proof.
  intros E Hid Hc Hj.
  destruct (publish_connected
              (state_topic_base node_id ++ "/" ++ slug
               ++ suffix_or_empty sfx ++ "/state")
              (json_dumps v) false 0 s Hc) as (b & out & Hp).
  unfold publish_sensor_state, bind at 1, get. rewrite E.
  rewrite (bind_return _ _ _ _ _ (first_identifier_spec _ _ _ _ Hid)).
  rewrite (bind_return _ _ _ _ _ (json_dumps_call_returns v s Hj)).
  rewrite (bind_return _ _ _ _ _ Hp).
  eexists. reflexivity.
Qed.

Lemma state_disconnected slug v sfx d node_id rest s :
  device_info_dict s = Some d ->
  identifiers d = node_id :: rest ->
  is_connected s = false ->
  json_dumps_raises v = None ->
  publish_sensor_state paho_publish_reply json_dumps_raises slug v sfx s
  = (Return PyNone,
     advance [] (log_out s LvlWarning
                   ("Not connected. Cannot publish to "
                    ++ (state_topic_base node_id ++ "/" ++ slug
                        ++ suffix_or_empty sfx ++ "/state") ++ ".")) s).
Proof.
  intros E Hid Hc Hj.
  unfold publish_sensor_state, bind at 1, get. rewrite E.
  rewrite (bind_return _ _ _ _ _ (first_identifier_spec _ _ _ _ Hid)).
  rewrite (bind_return _ _ _ _ _ (json_dumps_call_returns v s Hj)).
  now rewrite (bind_return _ _ _ _ _
                 (publish_disconnected _ (json_dumps v) false 0 s Hc)).
Qed.

(** What [json.dumps] raises on the value reaches the caller, connected
    or not, before anything is logged or handed to the transport. *)
Lemma state_raises slug v sfx d node_id rest s e :
  device_info_dict s = Some d ->
  identifiers d = node_id :: rest ->
  json_dumps_raises v = Some e ->
  publish_sensor_state paho_publish_reply json_dumps_raises slug v sfx s
  = (Raise e, s).
Proof.
  intros E Hid Hj.
  unfold publish_sensor_state, bind at 1, get. rewrite E.
  rewrite (bind_return _ _ _ _ _ (first_identifier_spec _ _ _ _ Hid)).
  now rewrite (bind_raise _ _ _ _ _ (json_dumps_call_raises v e s Hj)).
Qed.

Lemma static_discoveries_connected d node_id rest s :
  device_info_dict s = Some d ->
  identifiers d = node_id :: rest ->
  is_connected s = true ->
  exists out,
    publish_static_sensor_discoveries paho_publish_reply s
    = (Return PyNone,
       advance (map paho_publish
                  [discovery_message d node_id inlet_temp;
                   discovery_message d node_id exhaust_temp;
                   discovery_message d node_id target_fan_speed;
                   discovery_message d node_id hottest_cpu_temp;
                   discovery_message d node_id power_consumption]) out s).
Proof.
  intros E Hid Hc.
  unfold publish_static_sensor_discoveries, bind at 1 2, get.
  rewrite Hc, E. unfold bind at 1. rewrite log_spec.
  set (s0 := advance [] _ s).
  destruct (discovery_connected inlet_temp d node_id rest s0 E Hid Hc)
    as (o1 & H1).
  rewrite (bind_return _ _ _ _ _ H1). clear H1.
  set (s1 := advance _ o1 s0).
  destruct (discovery_connected exhaust_temp d node_id rest s1 E Hid Hc)
    as (o2 & H2).
  rewrite (bind_return _ _ _ _ _ H2). clear H2.
  set (s2 := advance _ o2 s1).
  destruct (discovery_connected target_fan_speed d node_id rest s2 E Hid Hc)
    as (o3 & H3).
  rewrite (bind_return _ _ _ _ _ H3). clear H3.
  set (s3 := advance _ o3 s2).
  destruct (discovery_connected hottest_cpu_temp d node_id rest s3 E Hid Hc)
    as (o4 & H4).
  rewrite (bind_return _ _ _ _ _ H4). clear H4.
  set (s4 := advance _ o4 s3).
  destruct (discovery_connected power_consumption d node_id rest s4 E Hid Hc)
    as (o5 & H5).
  rewrite (bind_return _ _ _ _ _ H5). clear H5.
  subst s4 s3 s2 s1 s0. rewrite !advance_advance.
  eexists. reflexivity.
Qed.

Lemma static_discoveries_skipped s :
  is_connected s = false \/ device_info_dict s = None ->
  publish_static_sensor_discoveries paho_publish_reply s
  = (Return PyNone,
     advance [] (log_out s LvlWarning
       "MQTT not connected or device_info not set, skipping static discoveries.")
       s).
Proof.
  intros H. unfold publish_static_sensor_discoveries, bind at 1 2, get.
  destruct H as [H|H]; rewrite H.
  - unfold bind. rewrite log_spec. reflexivity.
  - destruct (is_connected s); unfold bind; rewrite log_spec; reflexivity.
Qed.

(** The connect callback at [rc = 0], with and without a device
    identity. *)
Lemma on_connect_with_info d node_id rest s :
  device_info_dict s = Some d ->
  identifiers d = node_id :: rest ->
  exists out,
    on_connect paho_publish_reply 0 s
    = (Return tt,
       advance (map paho_publish
                  [status_config_message d node_id;
                   online_message;
                   discovery_message d node_id inlet_temp;
                   discovery_message d node_id exhaust_temp;
                   discovery_message d node_id target_fan_speed;
                   discovery_message d node_id hottest_cpu_temp;
                   discovery_message d node_id power_consumption])
               out (with_is_connected true s)).
Proof.
  intros E Hid. unfold on_connect. cbn [Z.eqb].
  step_refl. step_with log_spec. step_refl.
  set (s0 := with_is_connected true (advance [] _ s)).
  assert (Hc : is_connected s0 = true) by reflexivity.
  assert (E0 : device_info_dict s0 = Some d) by exact E.
  step_refl. rewrite E0.
  destruct (publish_connected (status_config_topic node_id)
              (json_dumps (status_config_payload d node_id)) true 0 s0 Hc)
    as (b1 & o1 & H1).
  erewrite (bind_return (bind _ _)); cycle 1.
  { step_with (first_identifier_spec _ _ _ s0 Hid).
    step_with H1. reflexivity. }
  cbv beta. set (s1 := advance _ o1 s0).
  destruct (publish_connected status_topic "online" true 0 s1 Hc)
    as (b2 & o2 & H2).
  step_with H2. set (s2 := advance _ o2 s1).
  destruct (static_discoveries_connected d node_id rest s2 E0 Hid Hc)
    as (o3 & H3).
  step_with H3. unfold ret.
  subst s2 s1 s0. rewrite !advance_advance, advance_connected,
    advance_advance.
  eexists. reflexivity.
Qed.

Lemma on_connect_without_info s :
  device_info_dict s = None ->
  exists out,
    on_connect paho_publish_reply 0 s
    = (Return tt,
       advance [paho_publish online_message]
         (out ++ log_out s LvlWarning
            "MQTT not connected or device_info not set, skipping static discoveries.")
         (with_is_connected true s)).
Proof.
  intros E. unfold on_connect. cbn [Z.eqb].
  step_refl. step_with log_spec. step_refl.
  set (s0 := with_is_connected true (advance [] _ s)).
  assert (Hc : is_connected s0 = true) by reflexivity.
  assert (E0 : device_info_dict s0 = None) by exact E.
  step_refl. rewrite E0. step_refl.
  destruct (publish_connected status_topic "online" true 0 s0 Hc)
    as (b2 & o2 & H2).
  step_with H2. set (s1 := advance _ o2 s0).
  step_with (static_discoveries_skipped s1 (or_intror E0)).
  unfold ret. subst s1 s0.
  rewrite !advance_advance, advance_connected, advance_advance.
  eexists. rewrite <- List.app_assoc. reflexivity.
Qed.

(** *** The frame of each method that is not a callback *)

Lemma frames_client_publish m : frames (client_publish paho_publish_reply m).
Proof. intros s. rewrite client_publish_spec. eauto. Qed.

Lemma frames_call_client c : frames (call_client paho_reply c).
Proof. intros s. rewrite call_client_spec. eauto. Qed.

Lemma frames_of_result {A} (r : Result A) : frames (of_result r).
Proof. intros s. exists r, [], []. now rewrite advance_nil. Qed.

Hint Resolve frames_client_publish frames_call_client frames_of_result
  : frame.

Lemma frames_publish t p r q : frames (publish paho_publish_reply t p r q).
Proof. unfold publish. frame_steps. Qed.

Hint Resolve frames_publish : frame.

Lemma frames_publish_sensor_discovery x :
  frames (publish_sensor_discovery paho_publish_reply x).
Proof. unfold publish_sensor_discovery. frame_steps. Qed.

Hint Resolve frames_publish_sensor_discovery : frame.

Lemma frames_json_dumps_call v : frames (json_dumps_call json_dumps_raises v).
Proof. unfold json_dumps_call. frame_steps. Qed.

Hint Resolve frames_json_dumps_call : frame.

Lemma frames_publish_sensor_state slug v sfx :
  frames (publish_sensor_state paho_publish_reply json_dumps_raises
                               slug v sfx).
Proof. unfold publish_sensor_state. frame_steps. Qed.

Lemma frames_publish_static_sensor_discoveries :
  frames (publish_static_sensor_discoveries paho_publish_reply).
Proof. unfold publish_static_sensor_discoveries. frame_steps. Qed.

Lemma frames_connect_attempt : frames (connect_attempt paho_reply).
Proof. unfold connect_attempt. frame_steps. Qed.

Lemma frames_connect_handler e : frames (connect_handler e).
Proof. unfold connect_handler. frame_steps. Qed.

Hint Resolve frames_connect_attempt frames_connect_handler : frame.

Lemma frames_connect : frames (connect paho_reply).
Proof. unfold connect. frame_steps. Qed.

(** *** [disconnect] and the callbacks made from within it *)

Lemma on_disconnect_spec rc s :
  on_disconnect rc s
  = (Return tt,
     with_is_connected false
       (advance [] (log_out s LvlInfo
                      ("Disconnected from broker with result code "
                       ++ str_of_Z rc ++ ".")) s)).
Proof. unfold on_disconnect. step_with log_spec. reflexivity. Qed.

Lemma run_disconnect_callbacks_spec rcs s :
  run_disconnect_callbacks rcs s
  = (Return tt,
     with_is_connected
       (match rcs with [] => is_connected s | _ => false end)
       (advance [] (callback_lines s rcs) s)).
Proof.
  revert s. induction rcs as [|rc rcs IH]; intros s.
  - cbn [run_disconnect_callbacks callback_lines flat_map].
    rewrite advance_nil. now destruct s.
  - cbn [run_disconnect_callbacks]. step_with on_disconnect_spec.
    rewrite IH. f_equal.
    rewrite advance_connected, advance_advance.
    cbn [callback_lines flat_map]. now destruct rcs.
Qed.

Lemma client_disconnect_spec s :
  paho_reply (client s) paho_disconnect = None ->
  client_disconnect paho_reply paho_disconnect_callbacks s
  = (Return tt,
     with_is_connected
       (match paho_disconnect_callbacks (client s) with
        | [] => is_connected s
        | _ => false
        end)
       (advance [paho_disconnect]
                (callback_lines s (paho_disconnect_callbacks (client s))) s)).
Proof.
  intros H. unfold client_disconnect. step_refl.
  erewrite bind_return; cycle 1.
  { rewrite call_client_spec, H. reflexivity. }
  cbv beta. rewrite run_disconnect_callbacks_spec, advance_advance.
  reflexivity.
Qed.

Lemma client_disconnect_raises s e :
  paho_reply (client s) paho_disconnect = Some e ->
  client_disconnect paho_reply paho_disconnect_callbacks s
  = (Raise e, advance [paho_disconnect] [] s).
Proof.
  intros H. unfold client_disconnect. step_refl.
  erewrite bind_raise; cycle 1.
  { rewrite call_client_spec, H. reflexivity. }
  reflexivity.
Qed.

Lemma disconnect_returns s :
  is_connected s = true ->
  paho_reply (client s) loop_stop = None ->
  paho_reply (client s ++ [loop_stop])%list paho_disconnect = None ->
  disconnect paho_reply paho_disconnect_callbacks s
  = (Return tt,
     with_is_connected false
       (advance [loop_stop; paho_disconnect]
          (callback_lines s
             (paho_disconnect_callbacks (client s ++ [loop_stop])%list)
           ++ log_out s LvlInfo "Gracefully disconnected.") s)).
Proof.
  intros Hc H1 H2. unfold disconnect. step_refl. rewrite Hc.
  erewrite bind_return; cycle 1.
  { rewrite call_client_spec, H1. reflexivity. }
  cbv beta.
  erewrite bind_return; cycle 1.
  { apply client_disconnect_spec. rewrite advance_calls.
    cbn [client with_client]. exact H2. }
  cbv beta. step_with log_spec.
  rewrite advance_calls. cbn [client with_client].
  rewrite <- advance_calls. unfold modify.
  rewrite !advance_connected, !advance_advance. reflexivity.
Qed.

Lemma disconnect_noop s :
  is_connected s = false ->
  disconnect paho_reply paho_disconnect_callbacks s = (Return tt, s).
Proof.
  intros Hc. unfold disconnect. step_refl. rewrite Hc. reflexivity.
Qed.

End TransportFacts.

(** ** Reading back what [json.dumps] wrote *)

(** *** Digits and integers *)

Lemma digit_of_chr_chr d : digit_of_chr (digit_chr d) = Some d.
Proof. destruct d; reflexivity. Qed.

Lemma span_digits_stop s : no_digit_ahead s = true -> span_digits s = ([], s).
Proof.
  destruct s as [|c s]; [reflexivity|]. simpl.
  destruct (digit_of_chr c); [discriminate | reflexivity].
Qed.

Lemma span_digits_app ds rest :
  no_digit_ahead rest = true ->
  span_digits (str_of_digits ds ++ rest) = (ds, rest).
Proof.
  intros H. induction ds as [|d ds IH]; simpl.
  - now apply span_digits_stop.
  - now rewrite digit_of_chr_chr, IH.
Qed.

Lemma N_of_digits_acc ds acc :
  fold_left (fun a d => (10 * a + digit_val d)%N) ds acc
  = (acc * 10 ^ N.of_nat (length ds) + N_of_digits ds)%N.
Proof.
  unfold N_of_digits. revert acc.
  induction ds as [|d ds IH]; intros acc.
  - simpl. lia.
  - cbn [fold_left length]. rewrite IH, (IH (10 * 0 + digit_val d)%N).
    rewrite Nat2N.inj_succ, N.pow_succ_r'. lia.
Qed.

Lemma N_of_digits_cons d ds :
  N_of_digits (d :: ds)
  = (digit_val d * 10 ^ N.of_nat (length ds) + N_of_digits ds)%N.
Proof.
  unfold N_of_digits at 1. cbn [fold_left]. rewrite N_of_digits_acc.
  f_equal.
Qed.

Lemma of_uint_acc_digits u acc :
  Npos (Pos.of_uint_acc u acc)
  = fold_left (fun a d => (10 * a + digit_val d)%N) (uint_digits u)
              (Npos acc).
Proof.
  revert acc. induction u; intros acc; cbn [uint_digits fold_left Pos.of_uint_acc];
    try reflexivity; rewrite IHu; f_equal; cbn [digit_val]; lia.
Qed.

Lemma of_uint_digits u : N.of_uint u = N_of_digits (uint_digits u).
Proof.
  unfold N.of_uint, N_of_digits.
  induction u; cbn [uint_digits fold_left Pos.of_uint]; try reflexivity;
    try (rewrite of_uint_acc_digits; reflexivity).
  exact IHu.
Qed.

Lemma N_of_digits_of_N n : N_of_digits (digits_of_N n) = n.
Proof.
  unfold digits_of_N. rewrite <- of_uint_digits. apply DecimalN.Unsigned.of_to.
Qed.

Lemma digits_of_N_normal n : normal (digits_of_N n) = true.
Proof.
  unfold digits_of_N.
  assert (H : Decimal.unorm (N.to_uint n) = N.to_uint n).
  { rewrite <- DecimalN.Unsigned.to_of, DecimalN.Unsigned.of_to. reflexivity. }
  destruct (N.to_uint n) as [|u|u|u|u|u|u|u|u|u|u];
    try (destruct u; reflexivity).
  - discriminate H.
  - unfold Decimal.unorm in H. cbn [Decimal.nzhead] in H.
    destruct (Decimal.nzhead u) eqn:E; inversion H; subst;
      solve [ reflexivity | destruct (DecimalFacts.nzhead_nonzero _ _ E) ].
Qed.

(** *** Numerals *)

Lemma delimited_no_digit rest : delimited rest = true -> no_digit_ahead rest = true.
Proof.
  destruct rest as [|c r]; [reflexivity|]. simpl. intros H.
  apply orb_true_iff in H. destruct H as [H|H]; apply Ascii.eqb_eq in H;
    subst c; reflexivity.
Qed.

Lemma scan_frac_none rest : delimited rest = true -> scan_frac rest = (None, rest).
Proof.
  destruct rest as [|c r]; [reflexivity|]. simpl. intros H.
  apply orb_true_iff in H. destruct H as [H|H]; apply Ascii.eqb_eq in H;
    subst c; reflexivity.
Qed.

Lemma scan_exp_none rest : delimited rest = true -> scan_exp rest = (None, rest).
Proof.
  destruct rest as [|c r]; [reflexivity|]. simpl. intros H.
  apply orb_true_iff in H. destruct H as [H|H]; apply Ascii.eqb_eq in H;
    subst c; reflexivity.
Qed.

Lemma exp_text_no_digit ex rest :
  delimited rest = true -> no_digit_ahead (exp_text ex ++ rest) = true.
Proof.
  intros H. destruct ex as [[neg ds]|]; [reflexivity|].
  now apply delimited_no_digit.
Qed.

Lemma scan_frac_text fr rest :
  fr <> Some [] -> no_digit_ahead rest = true ->
  (forall r, rest <> String "." r) ->
  scan_frac (frac_text fr ++ rest) = (fr, rest).
Proof.
  intros Hne Hrest Hdot. destruct fr as [f|].
  - cbn [frac_text append]. unfold scan_frac.
    rewrite span_digits_app by exact Hrest.
    destruct f; [congruence | reflexivity].
  - simpl. destruct rest as [|c r]; [reflexivity|].
    unfold scan_frac. destruct (Ascii.eqb_spec c "."%char) as [->|Hc].
    + destruct (Hdot r eq_refl).
    + destruct c as [[] [] [] [] [] [] [] []]; try reflexivity.
      destruct Hc. reflexivity.
Qed.

Lemma scan_exp_text ex rest :
  (forall neg, ex <> Some (neg, [])) -> delimited rest = true ->
  scan_exp (exp_text ex ++ rest) = (exp_value ex, rest).
Proof.
  intros Hne Hrest. destruct ex as [[neg ds]|].
  - pose proof (delimited_no_digit rest Hrest) as Hnd.
    destruct neg; cbn [exp_text append]; unfold scan_exp;
      cbn [Ascii.eqb Bool.eqb orb andb];
      rewrite span_digits_app by exact Hnd;
      (destruct ds; [destruct (Hne _ eq_refl) | reflexivity]).
  - simpl. now apply scan_exp_none.
Qed.

Lemma exp_text_no_dot ex rest r :
  delimited rest = true -> exp_text ex ++ rest <> String "." r.
Proof.
  intros H. destruct ex as [[neg ds]|]; [discriminate|].
  simpl. destruct rest as [|c rest']; [discriminate|].
  simpl in H. intros E. inversion E; subst. discriminate H.
Qed.

(** The numeral [ip . fr e ex], read where something else follows. *)
Lemma scan_number_text (neg : bool) ip fr ex rest :
  normal ip = true ->
  fr <> Some [] ->
  (forall n, ex <> Some (n, [])) ->
  delimited rest = true ->
  scan_number ((if neg then "-" else "") ++ str_of_digits ip
               ++ frac_text fr ++ exp_text ex ++ rest)
  = Some (match fr, exp_value ex with
          | None, None =>
              PInt (if neg then (- Z.of_N (N_of_digits ip))%Z
                    else Z.of_N (N_of_digits ip))
          | _, _ =>
              PFloat (float_of_decimal neg ip
                        (match fr with Some f => f | None => [] end)
                        (match exp_value ex with Some e => e | None => 0%Z end))
          end, rest).
Proof.
  intros Hip Hfr Hex Hrest.
  set (tail := frac_text fr ++ exp_text ex ++ rest).
  assert (Htail : no_digit_ahead tail = true).
  { subst tail. destruct fr as [f|]; [reflexivity|].
    simpl. now apply exp_text_no_digit. }
  assert (Hscan :
    scan_number (str_of_digits ip ++ tail)
    = Some (match fr, exp_value ex with
            | None, None => PInt (Z.of_N (N_of_digits ip))
            | _, _ =>
                PFloat (float_of_decimal false ip
                          (match fr with Some f => f | None => [] end)
                          (match exp_value ex with Some e => e | None => 0%Z end))
            end, rest)
    /\ scan_number ("-" ++ str_of_digits ip ++ tail)
       = Some (match fr, exp_value ex with
               | None, None => PInt (- Z.of_N (N_of_digits ip))%Z
               | _, _ =>
                   PFloat (float_of_decimal true ip
                             (match fr with Some f => f | None => [] end)
                             (match exp_value ex with Some e => e | None => 0%Z end))
               end, rest)).
  { destruct ip as [|d ip']; [discriminate Hip|].
    assert (Hipart :
      (if is_zero d then ([d0], str_of_digits ip' ++ tail)
       else span_digits (str_of_digits (d :: ip') ++ tail))
      = (d :: ip', tail)).
    { destruct (is_zero d) eqn:Hz.
      - destruct d; try discriminate Hz.
        destruct ip' as [|x ip'']; [reflexivity | discriminate Hip].
      - now apply span_digits_app. }
    assert (Hfrac : scan_frac tail = (fr, exp_text ex ++ rest)).
    { subst tail. apply scan_frac_text.
      - exact Hfr.
      - now apply exp_text_no_digit.
      - intros r. now apply exp_text_no_dot. }
    assert (Hexp : scan_exp (exp_text ex ++ rest) = (exp_value ex, rest))
      by now apply scan_exp_text.
    split.
    - unfold scan_number.
      replace (match str_of_digits (d :: ip') ++ tail with
               | String "-"%char r => (true, r)
               | _ => (false, str_of_digits (d :: ip') ++ tail)
               end) with (false, str_of_digits (d :: ip') ++ tail)
        by (destruct d; reflexivity).
      cbn [str_of_digits append]. rewrite digit_of_chr_chr.
      change (String (digit_chr d) (str_of_digits ip' ++ tail))
        with (str_of_digits (d :: ip') ++ tail).
      rewrite Hipart, Hfrac, Hexp.
      destruct fr, (exp_value ex); reflexivity.
    - unfold scan_number. cbn [append].
      cbn [str_of_digits append]. rewrite digit_of_chr_chr.
      change (String (digit_chr d) (str_of_digits ip' ++ tail))
        with (str_of_digits (d :: ip') ++ tail).
      rewrite Hipart, Hfrac, Hexp.
      destruct fr, (exp_value ex); reflexivity. }
  destruct neg; [apply Hscan | apply Hscan].
Qed.

Lemma str_of_N_normal n rest :
  delimited rest = true ->
  scan_number (str_of_N n ++ rest) = Some (PInt (Z.of_N n), rest)
  /\ scan_number ("-" ++ str_of_N n ++ rest)
     = Some (PInt (- Z.of_N n), rest).
Proof.
  intros Hrest. unfold str_of_N.
  pose proof (scan_number_text false (digits_of_N n) None None rest
                (digits_of_N_normal n)) as Hpos.
  pose proof (scan_number_text true (digits_of_N n) None None rest
                (digits_of_N_normal n)) as Hneg.
  cbn [frac_text exp_text exp_value append] in Hpos, Hneg.
  rewrite N_of_digits_of_N in Hpos, Hneg.
  split; [apply Hpos | apply Hneg]; congruence.
Qed.

Lemma scan_number_int z rest :
  delimited rest = true ->
  scan_number (str_of_Z z ++ rest) = Some (PInt z, rest).
Proof.
  intros Hrest. destruct z as [|p|p]; unfold str_of_Z.
  - apply (str_of_N_normal 0 rest Hrest).
  - apply (str_of_N_normal (Npos p) rest Hrest).
  - rewrite append_assoc. apply (str_of_N_normal (Npos p) rest Hrest).
Qed.

(** *** Floats *)

Lemma drop_zeros_head d ds : is_zero d = false -> drop_zeros (d :: ds) = d :: ds.
Proof. intros H. simpl. now rewrite H. Qed.

Lemma drop_zeros_repeat n ds : drop_zeros (repeat d0 n ++ ds) = drop_zeros ds.
Proof. induction n as [|n IH]; [reflexivity | exact IH]. Qed.

Lemma rev_repeat_d0 n : rev (repeat d0 n) = repeat d0 n.
Proof.
  induction n as [|n IH]; [reflexivity|]. simpl. rewrite IH.
  clear IH. induction n as [|n IH]; [reflexivity|]. simpl. now rewrite IH.
Qed.

(** Nothing is stripped from digits that end in a digit other than 0,
    whatever zeros follow them. *)
Lemma strip_trailing_zeros ds n :
  ds <> [] -> is_zero (last ds d0) = false ->
  rev (drop_zeros (rev (ds ++ repeat d0 n))) = ds.
Proof.
  intros Hne Hlast.
  rewrite rev_app_distr, rev_repeat_d0, drop_zeros_repeat.
  destruct (rev ds) as [|x r] eqn:E.
  - apply (f_equal (@rev digit)) in E. rewrite rev_involutive in E.
    now destruct Hne.
  - assert (Hx : last ds d0 = x).
    { apply (f_equal (@rev digit)) in E. rewrite rev_involutive in E.
      rewrite E. simpl. now rewrite last_last. }
    rewrite Hx in Hlast. rewrite drop_zeros_head by exact Hlast.
    rewrite <- E. apply rev_involutive.
Qed.

Lemma str_of_digits_app a b :
  str_of_digits (a ++ b) = (str_of_digits a ++ str_of_digits b)%string.
Proof. induction a as [|d a IH]; simpl; [reflexivity | now rewrite IH]. Qed.

(** The two shapes of a float in the form [repr] prints. *)
Lemma float_wf_cases neg ds e :
  float_wf (FFinite neg ds e) = true ->
  (ds = [d0] /\ e = 1%Z)
  \/ (exists d tl, ds = d :: tl /\ is_zero d = false
                   /\ is_zero (last ds d0) = false).
Proof.
  destruct ds as [|d [|x tl]]; simpl; intros H.
  - discriminate.
  - destruct (is_zero d) eqn:Hz.
    + left. apply Z.eqb_eq in H. destruct d; try discriminate Hz. now split.
    + right. exists d, []. repeat split; assumption.
  - apply andb_true_iff in H. destruct H as [H1 H2].
    apply negb_true_iff in H1, H2.
    right. exists d, (x :: tl). repeat split; assumption.
Qed.

Lemma exp_str_text e :
  exists ds,
    exp_str e = ((if (e <? 0)%Z then "-" else "+") ++ str_of_digits ds)%string
    /\ ds <> [] /\ N_of_digits ds = Z.abs_N e.
Proof.
  unfold exp_str.
  pose proof (digits_of_N_normal (Z.abs_N e)) as Hn.
  pose proof (N_of_digits_of_N (Z.abs_N e)) as Hv.
  destruct (digits_of_N (Z.abs_N e)) as [|d [|x tl]].
  - discriminate Hn.
  - exists [d0; d]. repeat split; [discriminate|].
    rewrite <- Hv. unfold N_of_digits. simpl. reflexivity.
  - exists (d :: x :: tl). repeat split; [discriminate | exact Hv].
Qed.

(** [float_of_decimal] on digits that need no stripping but the zeros
    written around them. *)
Lemma float_of_decimal_padded neg ip fr ds (lead trail : nat) e :
  (ip ++ fr = repeat d0 lead ++ ds ++ repeat d0 trail)%list ->
  ds <> [] -> is_zero (hd d0 ds) = false -> is_zero (last ds d0) = false ->
  float_of_decimal neg ip fr e
  = FFinite neg ds (Z.of_nat (length ip) + e - Z.of_nat lead).
Proof.
  intros Hall Hne Hhd Hlast. unfold float_of_decimal. rewrite Hall.
  assert (Hsig : drop_zeros (repeat d0 lead ++ ds ++ repeat d0 trail)
                 = (ds ++ repeat d0 trail)%list).
  { rewrite drop_zeros_repeat. destruct ds as [|d tl]; [now destruct Hne|].
    apply drop_zeros_head. exact Hhd. }
  rewrite Hsig, (strip_trailing_zeros ds trail Hne Hlast).
  rewrite length_app, repeat_length.
  replace (lead + length (ds ++ repeat d0 trail)
           - length (ds ++ repeat d0 trail))%nat with lead by lia.
  destruct ds; [now destruct Hne | reflexivity].
Qed.

(** The numeral [repr] prints for a float, cut into integer part,
    fraction and exponent, and the float that numeral reads as. *)
Lemma float_repr_abs_shape ds e :
  (forall neg, float_wf (FFinite neg ds e) = true) ->
  exists ip fr ex,
    float_repr_abs ds e
    = (str_of_digits ip ++ frac_text fr ++ exp_text ex)%string
    /\ normal ip = true
    /\ fr <> Some []
    /\ (forall n, ex <> Some (n, []))
    /\ (fr <> None \/ ex <> None)
    /\ forall neg,
         float_of_decimal neg ip
           (match fr with Some f => f | None => [] end)
           (match exp_value ex with Some x => x | None => 0%Z end)
         = FFinite neg ds e.
Proof.
  intros Hwf. pose proof (float_wf_cases false ds e (Hwf false)) as Hc.
  destruct Hc as [[-> ->] | (d & tl & -> & Hd & Hl)].
  { exists [d0], (Some [d0]), None. repeat split; try discriminate.
    left. discriminate. }
  unfold float_repr_abs.
  destruct ((e <=? -4) || (16 <? e))%Z eqn:Hexp.
  - destruct (exp_str_text (e - 1)) as (eds & Hes & Hene & Hev).
    assert (Hval : exp_value (Some ((e - 1 <? 0)%Z, eds)) = Some (e - 1)%Z).
    { unfold exp_value. rewrite Hev.
      destruct (e - 1 <? 0)%Z eqn:Hs; f_equal.
      - apply Z.ltb_lt in Hs. rewrite N2Z.inj_abs_N. lia.
      - apply Z.ltb_ge in Hs. rewrite N2Z.inj_abs_N. lia. }
    destruct tl as [|x tl].
    + exists [d], None, (Some ((e - 1 <? 0)%Z, eds)).
      split; [cbn [frac_text exp_text append]; rewrite Hes; reflexivity|].
      split; [reflexivity|]. split; [discriminate|].
      split; [intros n E; inversion E; subst; now destruct Hene|].
      split; [right; discriminate|].
      intros neg. rewrite Hval.
      rewrite (float_of_decimal_padded neg [d] [] [d] 0 0 (e - 1));
        try reflexivity; try assumption; try discriminate.
      f_equal. cbn [length]. lia.
    + exists [d], (Some (x :: tl)), (Some ((e - 1 <? 0)%Z, eds)).
      split.
      { cbn [frac_text exp_text]. rewrite Hes, !append_assoc. reflexivity. }
      split; [reflexivity|]. split; [discriminate|].
      split; [intros n E; inversion E; subst; now destruct Hene|].
      split; [left; discriminate|].
      intros neg. rewrite Hval.
      rewrite (float_of_decimal_padded neg [d] (x :: tl) (d :: x :: tl) 0 0
                 (e - 1)); try assumption; try discriminate.
      * f_equal. cbn [length]. lia.
      * simpl. now rewrite List.app_nil_r.
  - apply orb_false_iff in Hexp. destruct Hexp as [H1 H2].
    apply Z.leb_gt in H1. apply Z.ltb_ge in H2.
    destruct (e <=? 0)%Z eqn:Hle.
    + apply Z.leb_le in Hle.
      exists [d0], (Some (repeat d0 (Z.to_nat (- e)) ++ d :: tl)%list), None.
      split; [cbn [frac_text exp_text]; now rewrite append_nil_r|].
      split; [reflexivity|].
      split; [destruct (Z.to_nat (- e)); discriminate|].
      split; [discriminate|]. split; [left; discriminate|].
      intros neg. cbn [exp_value].
      rewrite (float_of_decimal_padded neg [d0] _ (d :: tl)
                 (S (Z.to_nat (- e))) 0 0); try assumption; try discriminate.
      * f_equal. cbn [length]. lia.
      * simpl. now rewrite List.app_nil_r.
    + apply Z.leb_gt in Hle.
      destruct (Z.to_nat e <? length (d :: tl))%nat eqn:Hk.
      * apply Nat.ltb_lt in Hk.
        exists (firstn (Z.to_nat e) (d :: tl)),
               (Some (skipn (Z.to_nat e) (d :: tl))), None.
        split; [cbn [frac_text exp_text]; now rewrite append_nil_r|].
        split.
        { destruct (Z.to_nat e) as [|k] eqn:Ek; [lia|].
          cbn [firstn]. destruct (firstn k tl); [reflexivity|].
          cbn [normal]. now rewrite Hd. }
        split.
        { intros E. inversion E as [E'].
          apply (f_equal (@length digit)) in E'.
          rewrite length_skipn in E'. cbn [length] in E', Hk. lia. }
        split; [discriminate|]. split; [left; discriminate|].
        intros neg. cbn [exp_value].
        rewrite (float_of_decimal_padded neg _ _ (d :: tl) 0 0 0);
          try assumption; try discriminate.
        -- f_equal. rewrite length_firstn. lia.
        -- rewrite firstn_skipn. simpl. now rewrite List.app_nil_r.
      * apply Nat.ltb_ge in Hk.
        exists ((d :: tl) ++ repeat d0 (Z.to_nat e - length (d :: tl)))%list,
               (Some [d0]), None.
        split; [cbn [frac_text exp_text]; now rewrite append_nil_r|].
        split.
        { cbn [app]. destruct (tl ++ _)%list; [reflexivity|].
          cbn [normal]. now rewrite Hd. }
        split; [discriminate|]. split; [discriminate|].
        split; [left; discriminate|].
        intros neg. cbn [exp_value].
        rewrite (float_of_decimal_padded neg _ _ (d :: tl) 0
                   (S (Z.to_nat e - length (d :: tl))) 0);
          try assumption; try discriminate.
        -- f_equal. rewrite length_app, repeat_length. lia.
        -- rewrite <- List.app_assoc. cbn [repeat app]. f_equal. f_equal.
           change (d0 :: repeat d0 (Z.to_nat e - length (d :: tl)))
             with (repeat d0 (S (Z.to_nat e - length (d :: tl)))).
           rewrite <- repeat_cons. reflexivity.
Qed.

Lemma float_wf_sign neg neg' ds e :
  float_wf (FFinite neg ds e) = float_wf (FFinite neg' ds e).
Proof. reflexivity. Qed.

Lemma scan_number_float neg ds e rest :
  float_wf (FFinite neg ds e) = true ->
  delimited rest = true ->
  scan_number (float_str (FFinite neg ds e) ++ rest)
  = Some (PFloat (FFinite neg ds e), rest).
Proof.
  intros Hwf Hrest.
  destruct (float_repr_abs_shape ds e) as
    (ip & fr & ex & Htext & Hip & Hfr & Hex & Hfloat & Hval).
  { intros neg'. now rewrite (float_wf_sign neg' neg). }
  cbn [float_str]. rewrite Htext, !append_assoc.
  rewrite (scan_number_text neg ip fr ex rest Hip Hfr Hex Hrest).
  rewrite <- (Hval neg).
  destruct fr as [f|].
  - reflexivity.
  - destruct ex as [[[] eds]|]; [reflexivity | reflexivity|].
    destruct Hfloat as [H|H]; now destruct H.
Qed.

(** *** Strings *)

Lemma scan_string_chr c rest :
  scan_string (json_chr c ++ rest)
  = match scan_string rest with
    | Some (v, r) => Some (String c v, r)
    | None => None
    end.
Proof.
  destruct c as [[] [] [] [] [] [] [] []]; reflexivity.
Qed.

Lemma scan_string_body s rest :
  scan_string (json_str_body s ++ String dquote rest) = Some (s, rest).
Proof.
  induction s as [|c s IH]; [reflexivity|].
  cbn [json_str_body]. rewrite append_assoc, scan_string_chr, IH.
  reflexivity.
Qed.

Lemma json_str_app s rest :
  (json_str s ++ rest
   = String dquote (json_str_body s ++ String dquote rest))%string.
Proof. unfold json_str. cbn [append]. now rewrite append_assoc. Qed.

(** *** Scalars *)

Lemma scan_scalar_number s res :
  scan_number s = Some res -> scan_scalar s = Some res.
Proof.
  destruct s as [|c s]; [discriminate|]. intros H.
  destruct c as [[] [] [] [] [] [] [] []]; try discriminate H;
    unfold scan_scalar; cbn [Ascii.eqb Bool.eqb dquote andb strip_prefix];
    rewrite H; reflexivity.
Qed.

Lemma scan_scalar_dumps v rest :
  is_scalar v = true ->
  delimited rest = true ->
  scan_scalar (json_dumps v ++ rest) = Some (v, rest).
Proof.
  intros Hv Hrest. destruct v as [|[]|z|[neg ds e|[]]|s|l|d];
    try discriminate Hv; try reflexivity.
  - apply scan_scalar_number. cbn [json_dumps].
    now apply scan_number_int.
  - apply scan_scalar_number. cbn [json_dumps].
    now apply scan_number_float.
  - cbn [json_dumps]. rewrite json_str_app. unfold scan_scalar.
    rewrite Ascii.eqb_refl, scan_string_body. reflexivity.
Qed.

(** *** Objects *)

Lemma scan_scalar_no_ws s res : scan_scalar s = Some res -> skip_ws s = s.
Proof.
  destruct s as [|c s]; [reflexivity|]. intros H.
  destruct c as [[] [] [] [] [] [] [] []]; try reflexivity; discriminate H.
Qed.

Lemma delimited_no_ws s : delimited s = true -> skip_ws s = s.
Proof.
  destruct s as [|c s]; [reflexivity|]. simpl. intros H.
  apply orb_true_iff in H. destruct H as [H|H]; apply Ascii.eqb_eq in H;
    subst c; reflexivity.
Qed.

Lemma items_text_cons k v items :
  items_text ((k, v) :: items)
  = (json_str k ++ ": " ++ json_dumps v
     ++ match items with
        | [] => ""
        | _ => ", " ++ items_text items
        end)%string.
Proof. unfold items_text. destruct items; reflexivity. Qed.

Lemma scan_members_items items rest fuel :
  items <> [] ->
  forallb (fun kv => is_scalar (snd kv)) items = true ->
  (length items <= fuel)%nat ->
  scan_members fuel (items_text items ++ String "}" rest) = Some (items, rest).
Proof.
  revert fuel. induction items as [|[k v] items IH]; intros fuel Hne Hok Hfuel.
  - now destruct Hne.
  - destruct fuel as [|fuel]; [cbn [length] in Hfuel; lia|].
    cbn [forallb snd] in Hok. apply andb_true_iff in Hok.
    destruct Hok as [Hv Hrest].
    rewrite items_text_cons, !append_assoc.
    set (tail := (match items with
                  | [] => ""
                  | _ :: _ => ", " ++ items_text items
                  end ++ String "}" rest)%string).
    assert (Htail : delimited tail = true)
      by (subst tail; destruct items; reflexivity).
    rewrite json_str_app.
    cbn [scan_members]. rewrite Ascii.eqb_refl, scan_string_body.
    cbn [append skip_ws is_ws Ascii.eqb Bool.eqb orb andb].
    pose proof (scan_scalar_dumps v tail Hv Htail) as Hs.
    rewrite (scan_scalar_no_ws _ _ Hs), Hs.
    rewrite (delimited_no_ws _ Htail).
    subst tail. destruct items as [|kv items'].
    + reflexivity.
    + cbn [append skip_ws is_ws Ascii.eqb Bool.eqb orb andb].
      set (more := kv :: items') in *.
      assert (Hq : skip_ws (items_text more ++ String "}" rest)
                   = (items_text more ++ String "}" rest)%string).
      { subst more. destruct kv as [k' v']. rewrite items_text_cons.
        reflexivity. }
      rewrite Hq, IH.
      * reflexivity.
      * subst more. discriminate.
      * exact Hrest.
      * cbn [length] in Hfuel. lia.
Qed.

Lemma json_dumps_dict d :
  json_dumps (PDict d) = ("{" ++ json_items d ++ "}")%string.
Proof.
  reflexivity.
Qed.

Lemma length_append a b :
  String.length (a ++ b) = (String.length a + String.length b)%nat.
Proof. induction a as [|c a IH]; simpl; [reflexivity | now rewrite IH]. Qed.

Lemma items_text_length items :
  (length items <= String.length (items_text items))%nat.
Proof.
  induction items as [|[k v] items IH]; [apply Nat.le_0_l|].
  rewrite items_text_cons, !length_append.
  assert (Hk : (1 <= String.length (json_str k))%nat)
    by (unfold json_str; cbn [String.length]; lia).
  destruct items as [|kv items'].
  - cbn [length]. lia.
  - rewrite length_append. cbn [length] in *. lia.
Qed.

Lemma dict_set_new k v d :
  existsb (String.eqb k) (map fst d) = false ->
  dict_set k v d = (d ++ [(k, v)])%list.
Proof.
  induction d as [|[k' v'] d IH]; [reflexivity|].
  cbn [map fst existsb dict_set app]. intros H.
  apply orb_false_iff in H. destruct H as [H1 H2].
  now rewrite H1, IH.
Qed.

Lemma existsb_app_keys k (a b : list string) :
  existsb (String.eqb k) (a ++ b)
  = existsb (String.eqb k) a || existsb (String.eqb k) b.
Proof. apply existsb_app. Qed.

Lemma dict_of_pairs_acc items acc :
  keys_distinct (map fst items) = true ->
  (forall k, In k (map fst items) ->
             existsb (String.eqb k) (map fst acc) = false) ->
  fold_left (fun d kv => dict_set (fst kv) (snd kv) d) items acc
  = (acc ++ items)%list.
Proof.
  revert acc. induction items as [|[k v] items IH]; intros acc Hd Hacc.
  - now rewrite List.app_nil_r.
  - cbn [map fst keys_distinct] in Hd. apply andb_true_iff in Hd.
    destruct Hd as [Hk Hd]. apply negb_true_iff in Hk.
    cbn [fold_left fst snd].
    rewrite dict_set_new by (apply Hacc; now left).
    rewrite IH.
    + now rewrite <- List.app_assoc.
    + exact Hd.
    + intros k' Hin. rewrite map_app, existsb_app_keys.
      rewrite (Hacc k') by (now right). cbn [map fst existsb].
      rewrite orb_false_r. cbn [orb].
      destruct (String.eqb_spec k' k) as [->|Hne]; [|reflexivity].
      exfalso. clear - Hk Hin.
      induction (map fst items) as [|x l IHl]; [destruct Hin|].
      cbn [existsb] in Hk. apply orb_false_iff in Hk.
      destruct Hk as [Hx Hl]. destruct Hin as [->|Hin].
      * now rewrite String.eqb_refl in Hx.
      * now apply IHl.
Qed.

Lemma dict_of_pairs_distinct items :
  keys_distinct (map fst items) = true -> dict_of_pairs items = items.
Proof.
  intros H. unfold dict_of_pairs. now rewrite dict_of_pairs_acc.
Qed.

(** A flat structure with string keys is read back as it was written. *)
Lemma json_loads_dumps items :
  flat_items items = true ->
  json_loads (json_dumps (str_dict items)) = Some (str_dict items).
Proof.
  intros H. unfold flat_items in H. apply andb_true_iff in H.
  destruct H as [Hok Hd]. unfold str_dict at 1.
  rewrite json_dumps_dict. fold (items_text items).
  destruct items as [|[k v] items]; [reflexivity|].
  set (its := (k, v) :: items) in *.
  assert (Hq : exists body,
             (items_text its ++ "}")%string = String dquote body).
  { subst its. rewrite items_text_cons. unfold json_str. eexists.
    reflexivity. }
  destruct Hq as (body & Hq). unfold dquote in Hq.
  unfold json_loads. cbn [append skip_ws is_ws Ascii.eqb Bool.eqb orb andb].
  rewrite Hq. cbn [skip_ws is_ws Ascii.eqb Bool.eqb orb andb dquote].
  rewrite <- Hq.
  rewrite (scan_members_items its EmptyString).
  - cbn [skip_ws]. now rewrite dict_of_pairs_distinct.
  - subst its. discriminate.
  - exact Hok.
  - rewrite length_append. pose proof (items_text_length its). lia.
Qed.

(** ** The discovery payload and the identifier *)

Lemma optional_entry_supplied key c v :
  optional_entry key (Some (String c v)) = [(KStr key, PStr (String c v))].
Proof. reflexivity. Qed.

Lemma optional_entry_absent key v :
  opt_truthy v = false -> optional_entry key v = [].
Proof. destruct v as [[|c v]|]; simpl; intros H; congruence. Qed.

(** [replace] changes the dots and nothing else. *)
Lemma str_replace_get a i :
  String.get i (str_replace "."%char "_"%char a)
  = option_map (fun c => if Ascii.eqb c "."%char then "_"%char else c)
               (String.get i a).
Proof.
  revert i. induction a as [|c a IH]; intros i; simpl; [reflexivity|].
  destruct i; simpl; [reflexivity | apply IH].
Qed.

(** On an address made of letters, digits and dots, the derivation of the
    source and the one worded in the specification agree. *)
Lemma sanitize_agrees a :
  (forall i c, String.get i a = Some c -> is_alnum c = true \/ c = "."%char) ->
  str_replace "."%char "_"%char a = spec_sanitize a.
Proof.
  induction a as [|c a IH]; intros H; simpl; [reflexivity|].
  rewrite IH by (intros i c' Hi; apply (H (S i)); exact Hi).
  destruct (H 0%nat c eq_refl) as [Hc|Hc].
  - rewrite Hc. destruct (Ascii.eqb_spec c "."%char) as [->|]; [discriminate|].
    reflexivity.
  - subst c. reflexivity.
Qed.

(** ** The claims *)

(** C1 (as amended).  While not connected and with the device identity set,
    [publish_sensor_state] hands nothing to the transport; when
    [json.dumps] writes the value, it logs the warning of [publish] and
    returns [None]: the boolean [False] is what the inner [publish]
    returns, and [publish_sensor_state] drops it.  What [json.dumps]
    raises on the value is not caught: it reaches the caller, and nothing
    is logged.  In every connection state, with or without a device
    identity, the call returns [None] or raises what [json.dumps]
    raises. *)
Theorem publish_sensor_state_returns_none :
  forall ppr jr slug v sfx s d node_id rest,
    device_info_dict s = Some d ->
    identifiers d = node_id :: rest ->
    is_connected s = false ->
    let state_topic :=
      "ha_idrac_controller/sensor/" ++ node_id ++ "/" ++ slug
      ++ suffix_or_empty sfx ++ "/state" in
    publish_sensor_state ppr jr slug v sfx s
    = match jr v with
      | None =>
          (Return PyNone,
           advance [] (log_out s LvlWarning
                         ("Not connected. Cannot publish to "
                          ++ state_topic ++ ".")) s)
      | Some e => (Raise e, s)
      end
    /\ client (state_after (publish_sensor_state ppr jr slug v sfx) s)
       = client s
    /\ result_of (publish ppr state_topic (json_dumps v) false 0) s
       = Return (PyBool false)
    /\ (forall s2,
           (forall d2, device_info_dict s2 = Some d2 -> identifiers d2 <> []) ->
           result_of (publish_sensor_state ppr jr slug v sfx) s2
           = match device_info_dict s2, jr v with
             | Some _, Some e => Raise e
             | _, _ => Return PyNone
             end).
Proof.
  intros ppr jr slug v sfx s d node_id rest E Hid Hc state_topic.
  assert (H : publish_sensor_state ppr jr slug v sfx s
              = match jr v with
                | None =>
                    (Return PyNone,
                     advance [] (log_out s LvlWarning
                                   ("Not connected. Cannot publish to "
                                    ++ state_topic ++ ".")) s)
                | Some e => (Raise e, s)
                end).
  { destruct (jr v) as [e|] eqn:Hj.
    - exact (state_raises ppr jr slug v sfx d node_id rest s e E Hid Hj).
    - exact (state_disconnected ppr jr slug v sfx d node_id rest s
               E Hid Hc Hj). }
  split; [exact H|].
  unfold result_of, state_after. rewrite H.
  rewrite (publish_disconnected ppr state_topic (json_dumps v) false 0 s Hc).
  cbn [fst snd]. repeat split.
  - destruct (jr v); cbn [snd]; [reflexivity|].
    unfold advance. simpl. now rewrite List.app_nil_r.
  - intros s2 H2. destruct (device_info_dict s2) as [d2|] eqn:E2.
    + destruct (identifiers d2) as [|i2 r2] eqn:Hid2.
      * now destruct (H2 d2 eq_refl).
      * destruct (jr v) as [e|] eqn:Hj.
        -- now rewrite (state_raises ppr jr slug v sfx d2 i2 r2 s2 e
                          E2 Hid2 Hj).
        -- destruct (is_connected s2) eqn:Hc2.
           ++ destruct (state_connected ppr jr slug v sfx d2 i2 r2 s2
                          E2 Hid2 Hc2 Hj) as (out & Hs).
              now rewrite Hs.
           ++ now rewrite (state_disconnected ppr jr slug v sfx d2 i2 r2 s2
                             E2 Hid2 Hc2 Hj).
    + unfold publish_sensor_state. step_refl. rewrite E2.
      step_with log_spec. reflexivity.
Qed.

(** The theorem at an instance with the identity set, not connected. *)
Lemma publish_sensor_state_returns_none_witness :
  device_info_dict sample_identity
  = Some (make_device_info (Some "Dell") (Some "R720") (Some "192.168.1.5"))
  /\ is_connected sample_identity = false
  /\ publish_sensor_state ok_publish int_limit_raises "inlet_temp"
       (PDict [(KStr "temperature", PInt 42)]) None sample_identity
     = (Return PyNone,
        advance []
          ["[WARNING] MQTT: Not connected. Cannot publish to ha_idrac_controller/sensor/idrac_controller_192_168_1_5_device/inlet_temp/state."]
          sample_identity).
Proof.
  split; [reflexivity | split; [reflexivity|]].
  exact (proj1 (publish_sensor_state_returns_none ok_publish int_limit_raises
                  "inlet_temp"
                  (PDict [(KStr "temperature", PInt 42)]) None sample_identity
                  (make_device_info (Some "Dell") (Some "R720")
                                    (Some "192.168.1.5"))
                  "idrac_controller_192_168_1_5_device" []
                  eq_refl eq_refl eq_refl)).
Defined.

(** C1 (as stated) fails: not connected and with the identity set, the
    call returns [None], which is not the boolean [False]; and on a
    reading that holds an integer of 4301 digits it raises, under the
    default limit of the interpreter. *)
Lemma publish_sensor_state_not_false :
  is_connected sample_identity = false
  /\ result_of (publish_sensor_state ok_publish int_limit_raises "inlet_temp"
                  (PDict [(KStr "temperature", PInt 42)]) None)
               sample_identity = Return PyNone
  /\ Return PyNone <> Return (PyBool false)
  /\ result_of (publish_sensor_state ok_publish int_limit_raises "inlet_temp"
                  oversize_reading None)
               sample_identity
     = Raise (Exception
         "Exceeds the limit (4300 digits) for integer string conversion; use sys.set_int_max_str_digits() to increase the limit").
Proof.
  split; [reflexivity|]. split; [vm_compute; reflexivity|].
  split; [discriminate|]. vm_compute. reflexivity.
Qed.

(** C2 (as amended).  On a successful connect callback with the device
    identity set, the callback hands to the transport, in this order and
    nothing else: the connectivity discovery message, the retained
    [online] status message, then the five static discoveries (inlet
    temperature, exhaust temperature, target fan speed, hottest CPU
    temperature, power consumption); it returns normally and leaves the
    instance connected. *)
Theorem on_connect_publishes_in_order :
  forall ppr s d node_id rest,
    device_info_dict s = Some d ->
    identifiers d = node_id :: rest ->
    let s' := state_after (on_connect ppr 0) s in
    result_of (on_connect ppr 0) s = Return tt
    /\ is_connected s' = true
    /\ client s'
       = (client s
          ++ map paho_publish
               [ status_config_message d node_id;
                 mkMessage "ha_idrac_controller/status" "online" 0 true;
                 discovery_message d node_id inlet_temp;
                 discovery_message d node_id exhaust_temp;
                 discovery_message d node_id target_fan_speed;
                 discovery_message d node_id hottest_cpu_temp;
                 discovery_message d node_id power_consumption ])%list.
Proof.
  intros ppr s d node_id rest E Hid s'. subst s'.
  destruct (on_connect_with_info ppr d node_id rest s E Hid) as (out & H).
  unfold result_of, state_after. rewrite H. cbn [fst snd].
  repeat split.
Qed.

(** The theorem at the sample instance: the topics of the seven messages. *)
Lemma on_connect_publishes_in_order_witness :
  device_info_dict sample_identity
  = Some (make_device_info (Some "Dell") (Some "R720") (Some "192.168.1.5"))
  /\ map topic (published (client sample_connected))
     = [ "homeassistant/binary_sensor/idrac_controller_idrac_controller_192_168_1_5_device/status/config";
         "ha_idrac_controller/status";
         "homeassistant/sensor/idrac_controller_192_168_1_5_device/inlet_temp/config";
         "homeassistant/sensor/idrac_controller_192_168_1_5_device/exhaust_temp/config";
         "homeassistant/sensor/idrac_controller_192_168_1_5_device/target_fan_speed/config";
         "homeassistant/sensor/idrac_controller_192_168_1_5_device/hottest_cpu_temp/config";
         "homeassistant/sensor/idrac_controller_192_168_1_5_device/power_consumption/config" ].
Proof.
  split; [reflexivity|].
  unfold sample_connected.
  rewrite (proj2 (proj2 (on_connect_publishes_in_order ok_publish
                           sample_identity
                           (make_device_info (Some "Dell") (Some "R720")
                                             (Some "192.168.1.5"))
                           "idrac_controller_192_168_1_5_device" []
                           eq_refl eq_refl))).
  reflexivity.
Defined.

(** C2 (as stated) fails: the first message of the callback is the
    connectivity discovery, and the [online] status message comes second,
    not first. *)
Lemma on_connect_online_is_not_first :
  map topic (firstn 2 (published (client sample_connected)))
  = [ "homeassistant/binary_sensor/idrac_controller_idrac_controller_192_168_1_5_device/status/config";
      "ha_idrac_controller/status" ]
  /\ ~ (exists connectivity statics,
           published (client sample_connected)
           = online_message :: connectivity :: statics).
Proof.
  split; [reflexivity|].
  intros (c & st & H). vm_compute in H. discriminate H.
Qed.

(** C3 (the code at the failing input).  For the address 192.168.1.5 the
    derived identifier is [idrac_controller_192_168_1_5_device], and the
    connectivity discovery goes to a topic whose node is that identifier
    with [idrac_controller_] once more in front: not to
    [homeassistant/binary_sensor/<device-id>/status/config]. *)
Theorem connectivity_topic_doubles_prefix :
  exists m,
    hd_error (published (client sample_connected)) = Some m
    /\ device_info_dict sample_connected
       = Some (mkDeviceInfo ["idrac_controller_192_168_1_5_device"]
                            "iDRAC Controller (192.168.1.5)" "R720" "Dell")
    /\ topic m
       = "homeassistant/binary_sensor/idrac_controller_idrac_controller_192_168_1_5_device/status/config"
    /\ String.eqb (topic m)
         "homeassistant/binary_sensor/idrac_controller_192_168_1_5_device/status/config"
       = false
    /\ retain m = true
    /\ payload m
       = json_dumps
           (PDict
              [ (KStr "name", PStr "iDRAC Controller Connectivity");
                (KStr "state_topic", PStr "ha_idrac_controller/status");
                (KStr "unique_id",
                 PStr "idrac_controller_idrac_controller_192_168_1_5_device_connectivity");
                (KStr "device_class", PStr "connectivity");
                (KStr "payload_on", PStr "online");
                (KStr "payload_off", PStr "offline");
                (KStr "device",
                 PDict
                   [ (KStr "identifiers",
                      PList [PStr "idrac_controller_192_168_1_5_device"]);
                     (KStr "name", PStr "iDRAC Controller (192.168.1.5)");
                     (KStr "model", PStr "R720");
                     (KStr "manufacturer", PStr "Dell") ]) ]).
Proof. eexists. repeat split. Qed.

(** The sensor discoveries, for comparison, use the identifier itself as
    the node of their topic. *)
Lemma sensor_topic_uses_identifier :
  map topic (skipn 2 (firstn 3 (published (client sample_connected))))
  = ["homeassistant/sensor/idrac_controller_192_168_1_5_device/inlet_temp/config"].
Proof. reflexivity. Qed.

(** C4 (as amended).  [set_device_info] derives the identifier by putting
    an underscore for every dot of the address and leaving every other
    character as it is, between [idrac_controller_] and [_device]; an
    absent or empty address gives the placeholder [default_ip].  For
    192.168.1.5 the identifier is [idrac_controller_192_168_1_5_device],
    for an absent address [idrac_controller_default_ip_device]. *)
Theorem set_device_info_identifier :
  forall manufacturer model ip_address s,
    (exists d,
        device_info_dict
          (state_after (set_device_info manufacturer model ip_address) s)
        = Some d
        /\ identifiers d
           = [ "idrac_controller_"
               ++ match ip_address with
                  | Some (String c a) =>
                      str_replace "."%char "_"%char (String c a)
                  | _ => "default_ip"
                  end
               ++ "_device" ])
    /\ (forall a i,
           String.get i (str_replace "."%char "_"%char a)
           = option_map
               (fun c => if Ascii.eqb c "."%char then "_"%char else c)
               (String.get i a))
    /\ device_identifier (Some "192.168.1.5")
       = "idrac_controller_192_168_1_5_device"
    /\ device_identifier None = "idrac_controller_default_ip_device"
    /\ device_identifier (Some "") = "idrac_controller_default_ip_device".
Proof.
  intros manufacturer model ip_address s. repeat split.
  - exists (make_device_info manufacturer model ip_address). split.
    + unfold state_after, set_device_info. step_refl.
      rewrite log_spec. reflexivity.
    + destruct ip_address as [[|c a]|]; reflexivity.
  - intros a i. apply str_replace_get.
Qed.

(** C4 (as stated) fails: in the address fe80::1 the colons are not
    letters or digits, and the identifier keeps them. *)
Lemma device_identifier_keeps_colons :
  option_map identifiers
    (device_info_dict
       (state_after (set_device_info None None (Some "fe80::1"))
                    (init default_client_id)))
  = Some ["idrac_controller_fe80::1_device"]
  /\ spec_device_identifier (Some "fe80::1")
     = "idrac_controller_fe80__1_device"
  /\ device_identifier (Some "fe80::1")
     <> spec_device_identifier (Some "fe80::1").
Proof. repeat split. vm_compute. discriminate. Qed.

(** C5.  Before [set_device_info], [publish_sensor_discovery] does what one
    [_log] call at level warning does and nothing more: the warning is
    printed (unless the verbosity is set above warning), the transport
    receives no call, and the method returns normally. *)
Theorem discovery_before_device_info :
  forall ppr x s,
    device_info_dict s = None ->
    let message :=
      "Device info not set. Cannot publish discovery for "
      ++ sensor_name x ++ "." in
    let s' := state_after (publish_sensor_discovery ppr x) s in
    result_of (publish_sensor_discovery ppr x) s = Return PyNone
    /\ s' = state_after (_log LvlWarning message) s
    /\ client s' = client s
    /\ stdout s'
       = (stdout s
          ++ if log_enabled (log_level s) LvlWarning
             then [("[WARNING] MQTT: " ++ message)%string] else [])%list.
Proof.
  intros ppr x s E message s'. subst s'.
  unfold result_of, state_after.
  rewrite (discovery_without_info ppr x s E), log_spec. cbn [fst snd].
  repeat split.
  - unfold advance. simpl. now rewrite List.app_nil_r.
Qed.

(** The theorem at a fresh instance. *)
Lemma discovery_before_device_info_witness :
  device_info_dict (init default_client_id) = None
  /\ publish_sensor_discovery ok_publish inlet_temp (init default_client_id)
     = (Return PyNone,
        with_stdout
          ["[WARNING] MQTT: Device info not set. Cannot publish discovery for Inlet Temperature."]
          (init default_client_id)).
Proof.
  split; [reflexivity|].
  destruct (discovery_before_device_info ok_publish inlet_temp
              (init default_client_id) eq_refl) as (Hr & Hs & _).
  unfold result_of, state_after in Hr, Hs.
  destruct (publish_sensor_discovery ok_publish inlet_temp
              (init default_client_id)) as [r s'].
  cbn [fst snd] in Hr, Hs. rewrite Hr, Hs. reflexivity.
Defined.

(** C6 (as amended).  With the device identity set and while connected,
    [publish_sensor_discovery] hands to the transport exactly one message:
    retained, at QoS 0, on
    [homeassistant/sensor/<device-id>/<slug><suffix>/config], whose payload
    is the JSON text of: the display name, the state topic
    [ha_idrac_controller/sensor/<device-id>/<slug><suffix>/state], the
    unique id [<device-id>_<slug>] (followed by [_<suffix>] when a suffix
    is given), the device block, the availability topic with its two
    payloads, and, of device class, unit, icon, value template, category
    and state class, in this order, those given as a non-empty string. *)
Theorem publish_sensor_discovery_message :
  forall ppr x s d node_id rest,
    device_info_dict s = Some d ->
    identifiers d = node_id :: rest ->
    is_connected s = true ->
    let suffix :=
      match unique_id_suffix x with Some sfx => sfx | None => "" end in
    let slug := sensor_type_slug x ++ suffix in
    let given (key : string) (v : option string) :=
      match v with
      | Some (String c r) => [(KStr key, PStr (String c r))]
      | _ => []
      end in
    exists out,
      publish_sensor_discovery ppr x s
      = (Return PyNone,
         advance
           [ paho_publish
               {| topic :=
                    "homeassistant/sensor/" ++ node_id ++ "/" ++ slug
                    ++ "/config";
                  payload :=
                    json_dumps
                      (PDict
                         ([ (KStr "name", PStr (sensor_name x));
                            (KStr "state_topic",
                             PStr ("ha_idrac_controller/sensor/" ++ node_id
                                   ++ "/" ++ slug ++ "/state"));
                            (KStr "unique_id",
                             PStr (node_id ++ "_" ++ sensor_type_slug x
                                   ++ match suffix with
                                      | EmptyString => ""
                                      | _ => "_" ++ suffix
                                      end));
                            (KStr "device",
                             PDict
                               [ (KStr "identifiers",
                                  PList (map PStr (identifiers d)));
                                 (KStr "name", PStr (name d));
                                 (KStr "model", PStr (model d));
                                 (KStr "manufacturer",
                                  PStr (manufacturer d)) ]);
                            (KStr "availability_topic",
                             PStr "ha_idrac_controller/status");
                            (KStr "payload_available", PStr "online");
                            (KStr "payload_not_available", PStr "offline") ]
                          ++ given "device_class" (device_class x)
                          ++ given "unit_of_measurement"
                               (unit_of_measurement x)
                          ++ given "icon" (icon x)
                          ++ given "value_template" (value_template x)
                          ++ given "entity_category" (entity_category x)
                          ++ given "state_class" (state_class x)));
                  qos := 0;
                  retain := true |} ]
           out s).
Proof.
  intros ppr x s d node_id rest E Hid Hc suffix slug given.
  destruct (discovery_connected ppr x d node_id rest s E Hid Hc) as (out & H).
  exists out. rewrite H. do 3 f_equal.
  assert (Hsfx : suffix_or_empty (unique_id_suffix x) = suffix).
  { subst suffix. unfold suffix_or_empty, opt_or.
    now destruct (unique_id_suffix x) as [[|c r]|]. }
  assert (Hgiven : forall key v, optional_entry key v = given key v).
  { intros key v. subst given. now destruct v as [[|c r]|]. }
  unfold discovery_message, discovery_payload, config_topic,
    config_topic_slug_part, state_topic_base, base_unique_id, device_obj,
    status_topic.
  rewrite Hsfx, !Hgiven. fold slug.
  assert (Huid :
    match unique_id_suffix x with
    | Some sfx =>
        if str_truthy sfx
        then (node_id ++ "_" ++ sensor_type_slug x) ++ "_" ++ sfx
        else node_id ++ "_" ++ sensor_type_slug x
    | None => node_id ++ "_" ++ sensor_type_slug x
    end
    = node_id ++ "_" ++ sensor_type_slug x
      ++ match suffix with EmptyString => "" | _ => "_" ++ suffix end).
  { subst suffix.
    destruct (unique_id_suffix x) as [[|c r]|]; cbn [str_truthy];
      rewrite ?append_assoc, ?append_nil_r; reflexivity. }
  rewrite Huid. reflexivity.
Qed.

(** The theorem at the connected sample instance, for a fan sensor with
    a suffix. *)
Lemma publish_sensor_discovery_message_witness :
  is_connected sample_connected = true
  /\ exists out,
       publish_sensor_discovery ok_publish
         (mkDescriptor "fan_rpm" "Fan RPM" None (Some "RPM") (Some "mdi:fan")
                       (Some "{{ value_json.rpm }}") None (Some "_1") None)
         sample_connected
       = (Return PyNone,
          advance
            [ paho_publish
                (mkMessage
                   "homeassistant/sensor/idrac_controller_192_168_1_5_device/fan_rpm_1/config"
                   (json_dumps
                      (PDict
                         [ (KStr "name", PStr "Fan RPM");
                           (KStr "state_topic",
                            PStr "ha_idrac_controller/sensor/idrac_controller_192_168_1_5_device/fan_rpm_1/state");
                           (KStr "unique_id",
                            PStr "idrac_controller_192_168_1_5_device_fan_rpm__1");
                           (KStr "device",
                            PDict
                              [ (KStr "identifiers",
                                 PList
                                   [PStr "idrac_controller_192_168_1_5_device"]);
                                (KStr "name",
                                 PStr "iDRAC Controller (192.168.1.5)");
                                (KStr "model", PStr "R720");
                                (KStr "manufacturer", PStr "Dell") ]);
                           (KStr "availability_topic",
                            PStr "ha_idrac_controller/status");
                           (KStr "payload_available", PStr "online");
                           (KStr "payload_not_available", PStr "offline");
                           (KStr "unit_of_measurement", PStr "RPM");
                           (KStr "icon", PStr "mdi:fan");
                           (KStr "value_template",
                            PStr "{{ value_json.rpm }}") ]))
                   0 true) ]
            out sample_connected).
Proof.
  split; [reflexivity|].
  exact (publish_sensor_discovery_message ok_publish
           (mkDescriptor "fan_rpm" "Fan RPM" None (Some "RPM") (Some "mdi:fan")
                         (Some "{{ value_json.rpm }}") None (Some "_1") None)
           sample_connected
           (make_device_info (Some "Dell") (Some "R720") (Some "192.168.1.5"))
           "idrac_controller_192_168_1_5_device" []
           eq_refl eq_refl eq_refl).
Defined.

(** C6 (as stated) fails: with the device identity set but before the
    transport reported a connection, the call publishes nothing. *)
Lemma publish_sensor_discovery_needs_connection :
  device_info_dict sample_identity
  = Some (make_device_info (Some "Dell") (Some "R720") (Some "192.168.1.5"))
  /\ is_connected sample_identity = false
  /\ client (state_after (publish_sensor_discovery ok_publish inlet_temp)
                         sample_identity) = [].
Proof. repeat split. Qed.

(** An argument given as the empty string counts as not given. *)
Lemma empty_argument_is_left_out key :
  optional_entry key (Some "") = [].
Proof. reflexivity. Qed.

(** C8.  When the attempt inside [connect] raises, whatever the class of
    the exception (connection refused, another OS error, any other
    exception), [connect] catches it, logs one line at level error that
    depends on the class, returns normally, and the instance is still
    not connected. *)
Theorem connect_failure_is_caught :
  forall pr s e s1,
    let broker := broker_address s ++ ":" ++ str_of_Z (port s) in
    let message :=
      match e with
      | ConnectionRefusedError _ =>
          "Connection refused by broker " ++ broker ++ "."
      | OSError msg =>
          "OS error connecting to broker " ++ broker ++ " - " ++ msg
      | Exception msg => "Could not connect to broker: " ++ msg
      end in
    is_connected s = false ->
    connect_attempt pr
      (state_after
         (_log LvlInfo ("Attempting to connect to broker " ++ broker ++ "..."))
         s)
    = (Raise e, s1) ->
    connect pr s = (Return tt, state_after (_log LvlError message) s1)
    /\ is_connected (state_after (connect pr) s) = false
    /\ stdout (state_after (connect pr) s)
       = (stdout s1
          ++ if log_enabled (log_level s) LvlError
             then [("[ERROR] MQTT: " ++ message)%string] else [])%list.
Proof.
  intros pr s e s1 broker message Hc Hraise.
  unfold state_after in Hraise. rewrite log_spec in Hraise.
  cbn [snd] in Hraise.
  destruct (frames_connect_attempt pr
              (advance []
                 (log_out s LvlInfo
                    ("Attempting to connect to broker " ++ broker ++ "..."))
                 s)) as (r & c & o & Hf).
  rewrite Hraise in Hf.
  pose proof (f_equal snd Hf) as Hs1. cbn [snd] in Hs1. clear Hf.
  assert (Hb : broker_str s1 = broker) by (rewrite Hs1; reflexivity).
  assert (Hconn : connect pr s
                  = (Return tt, state_after (_log LvlError message) s1)).
  { unfold connect. step_refl. rewrite Hc. cbn [negb].
    step_refl. erewrite bind_return by apply log_spec.
    unfold try_except, broker_str. fold broker. rewrite Hraise.
    unfold connect_handler. step_refl. rewrite Hb.
    unfold state_after.
    destruct e; rewrite !log_spec; reflexivity. }
  split; [exact Hconn|].
  unfold state_after in *. rewrite Hconn, log_spec. cbn [snd]. split.
  - rewrite Hs1. exact Hc.
  - unfold log_out. rewrite Hs1. reflexivity.
Qed.

(** The theorem at a fresh instance whose broker refuses the connection. *)
Lemma connect_failure_is_caught_witness :
  is_connected (init default_client_id) = false
  /\ result_of (connect_attempt refusing_reply) (init default_client_id)
     = Raise (ConnectionRefusedError "[Errno 111] Connection refused")
  /\ result_of (connect refusing_reply) (init default_client_id) = Return tt
  /\ is_connected (state_after (connect refusing_reply)
                               (init default_client_id)) = false
  /\ stdout (state_after (connect refusing_reply) (init default_client_id))
     = [ "[INFO] MQTT: Attempting to connect to broker core-mosquitto:1883...";
         "[ERROR] MQTT: Connection refused by broker core-mosquitto:1883." ].
Proof.
  split; [reflexivity | split; [reflexivity|]].
  destruct (connect_failure_is_caught refusing_reply (init default_client_id)
              (ConnectionRefusedError "[Errno 111] Connection refused")
              _ eq_refl eq_refl) as (H1 & H2 & H3).
  unfold result_of. rewrite H1. split; [reflexivity|].
  split; [exact H2 | rewrite H3; reflexivity].
Defined.

(** C9 (as amended).  No publish operation changes the connection state:
    [publish], [publish_sensor_discovery], [publish_sensor_state] and
    [publish_static_sensor_discoveries] leave [is_connected] as it was,
    and so do [connect], [configure_broker] and [set_device_info].  The
    connection state is written by the two callbacks of the transport
    and, besides them, by [disconnect], which resets it itself. *)
Theorem publish_operations_keep_connection_state :
  forall pr ppr s,
    (forall t p r q,
        is_connected (state_after (publish ppr t p r q) s) = is_connected s)
    /\ (forall x,
           is_connected (state_after (publish_sensor_discovery ppr x) s)
           = is_connected s)
    /\ (forall jr slug v sfx,
           is_connected
             (state_after (publish_sensor_state ppr jr slug v sfx) s)
           = is_connected s)
    /\ is_connected (state_after (publish_static_sensor_discoveries ppr) s)
       = is_connected s
    /\ is_connected (state_after (connect pr) s) = is_connected s
    /\ (forall host p u pw lvl,
           is_connected (state_after (configure_broker pr host p u pw lvl) s)
           = is_connected s)
    /\ (forall manufacturer model ip_address,
           is_connected
             (state_after (set_device_info manufacturer model ip_address) s)
           = is_connected s)
    /\ (forall rc, is_connected (state_after (on_disconnect rc) s) = false)
    /\ (forall rc,
           is_connected (state_after (on_connect ppr rc) s) = (rc =? 0)%Z).
Proof.
  intros pr ppr s.
  split; [intros; apply frames_connected, frames_publish|].
  split; [intros; apply frames_connected, frames_publish_sensor_discovery|].
  split; [intros; apply frames_connected, frames_publish_sensor_state|].
  split; [apply frames_connected, frames_publish_static_sensor_discoveries|].
  split; [apply frames_connected, frames_connect|].
  split.
  { intros host p u pw lvl. unfold state_after, configure_broker.
    step_refl. destruct (str_truthy u).
    - rewrite call_client_spec. reflexivity.
    - reflexivity. }
  split.
  { intros manufacturer model ip_address.
    unfold state_after, set_device_info. step_refl.
    rewrite log_spec. reflexivity. }
  split.
  { intros rc. unfold state_after, on_disconnect.
    erewrite bind_return by apply log_spec. reflexivity. }
  intros rc. unfold state_after, on_connect.
  destruct (rc =? 0)%Z.
  - step_refl. erewrite bind_return by apply log_spec. step_refl.
    match goal with
    | |- is_connected (snd (?m ?s0)) = true =>
        change (is_connected (state_after m s0) = is_connected s0);
        apply frames_connected
    end.
    pose proof (frames_publish ppr).
    pose proof (frames_publish_static_sensor_discoveries ppr).
    frame_steps.
  - erewrite bind_return by apply log_spec. reflexivity.
Qed.

(** C9 (as stated) fails: the connection state is not written by the
    callbacks alone, [disconnect] resets it with no callback involved. *)
Lemma disconnect_resets_connection_state :
  is_connected sample_connected = true
  /\ is_connected (state_after (disconnect ok_reply no_callbacks)
                                sample_connected)
     = false.
Proof. split; reflexivity. Qed.

(** C10.  On a successful connect callback without a device identity the
    callback returns normally and leaves the instance connected; the
    transport receives the retained [online] status message and nothing
    else, neither the connectivity discovery nor any static discovery;
    the last line logged is the warning that the static discoveries are
    skipped (printed unless the verbosity is set above warning). *)
Theorem on_connect_without_device_info :
  forall ppr s,
    device_info_dict s = None ->
    let s' := state_after (on_connect ppr 0) s in
    result_of (on_connect ppr 0) s = Return tt
    /\ is_connected s' = true
    /\ client s'
       = (client s
          ++ [paho_publish
                (mkMessage "ha_idrac_controller/status" "online" 0 true)])%list
    /\ exists out,
         stdout s'
         = (stdout s ++ out
            ++ if log_enabled (log_level s) LvlWarning
               then ["[WARNING] MQTT: MQTT not connected or device_info not set, skipping static discoveries."]
               else [])%list.
Proof.
  intros ppr s E s'. subst s'.
  destruct (on_connect_without_info ppr s E) as (out & H).
  unfold result_of, state_after. rewrite H. cbn [fst snd].
  repeat split. exists out. reflexivity.
Qed.

(** The theorem at a fresh instance. *)
Lemma on_connect_without_device_info_witness :
  device_info_dict (init default_client_id) = None
  /\ client (state_after (on_connect ok_publish 0) (init default_client_id))
     = [paho_publish (mkMessage "ha_idrac_controller/status" "online" 0 true)]
  /\ is_connected (state_after (on_connect ok_publish 0)
                               (init default_client_id)) = true.
Proof.
  split; [reflexivity|].
  destruct (on_connect_without_device_info ok_publish
              (init default_client_id) eq_refl) as (_ & Hc & Hm & _).
  split; [exact Hm | exact Hc].
Defined.

(** C7 (as amended).  For a flat key-value structure whose keys are
    strings (its values: [None], booleans, integers, strings, floats other
    than NaN; every string made of characters with code points below
    256), passed to [publish_sensor_state] with the device identity set
    and while connected.  When [json.dumps] writes the structure, the one
    message handed to the transport is not retained, and reading its
    payload back with [json.loads] gives exactly the structure that was
    passed.  When [json.dumps] raises, as it does on an integer of more
    digits than the interpreter converts, the exception reaches the
    caller and no payload is handed to the transport. *)
Theorem state_payload_reads_back :
  forall ppr jr slug items sfx s d node_id rest,
    device_info_dict s = Some d ->
    identifiers d = node_id :: rest ->
    is_connected s = true ->
    flat_items items = true ->
    (jr (str_dict items) = None ->
     exists m out,
       publish_sensor_state ppr jr slug (str_dict items) sfx s
       = (Return PyNone, advance [paho_publish m] out s)
       /\ retain m = false
       /\ json_loads (payload m) = Some (str_dict items))
    /\ (forall e,
           jr (str_dict items) = Some e ->
           publish_sensor_state ppr jr slug (str_dict items) sfx s
           = (Raise e, s)).
Proof.
  intros ppr jr slug items sfx s d node_id rest E Hid Hc Hflat. split.
  - intros Hj.
    destruct (state_connected ppr jr slug (str_dict items) sfx d node_id
                rest s E Hid Hc Hj) as (out & H).
    eexists. exists out. split; [exact H|]. split; [reflexivity|].
    cbn [payload]. now apply json_loads_dumps.
  - intros e Hj.
    exact (state_raises ppr jr slug (str_dict items) sfx d node_id rest s e
             E Hid Hj).
Qed.

(** The theorem at the connected sample instance, for a temperature. *)
Lemma state_payload_reads_back_witness :
  is_connected sample_connected = true
  /\ flat_items [("temperature", PFloat (FFinite false [d4; d2] 2))] = true
  /\ exists m out,
       publish_sensor_state ok_publish int_limit_raises "inlet_temp"
         (str_dict [("temperature", PFloat (FFinite false [d4; d2] 2))])
         None sample_connected
       = (Return PyNone, advance [paho_publish m] out sample_connected)
       /\ retain m = false
       /\ json_loads (payload m)
          = Some (PDict [(KStr "temperature",
                          PFloat (FFinite false [d4; d2] 2))]).
Proof.
  split; [reflexivity | split; [reflexivity|]].
  exact (proj1 (state_payload_reads_back ok_publish int_limit_raises
                  "inlet_temp"
                  [("temperature", PFloat (FFinite false [d4; d2] 2))] None
                  sample_connected
                  (make_device_info (Some "Dell") (Some "R720")
                                    (Some "192.168.1.5"))
                  "idrac_controller_192_168_1_5_device" []
                  eq_refl eq_refl eq_refl eq_refl)
               eq_refl).
Defined.

(** C7 (as stated) fails: a key that is an integer is written as a
    string, so the structure [{1: 3000}] is read back as [{"1": 3000}]
    (with a string key), which is another structure. *)
Lemma int_key_is_not_read_back :
  map payload
      (skipn 7
         (published
            (client
               (state_after
                  (publish_sensor_state ok_publish int_limit_raises "fan_rpm"
                     (PDict [(KInt 1, PInt 3000)]) None)
                  sample_connected))))
  = [json_dumps (PDict [(KInt 1, PInt 3000)])]
  /\ json_loads (json_dumps (PDict [(KInt 1, PInt 3000)]))
     = Some (PDict [(KStr "1", PInt 3000)])
  /\ json_loads (json_dumps (PDict [(KInt 1, PInt 3000)]))
     <> Some (PDict [(KInt 1, PInt 3000)]).
Proof. repeat split. vm_compute. discriminate. Qed.

(** * Further properties of the class *)

(** ** The life cycle *)

Lemma advance_out o s : advance [] o s = with_stdout (stdout s ++ o) s.
Proof.
  destruct s. unfold advance, with_stdout, with_client. simpl.
  now rewrite List.app_nil_r.
Qed.

Lemma connect_attempt_calls pr s :
  exists r, connect_attempt pr s = (r, advance (connect_calls pr s) [] s).
Proof.
  unfold connect_attempt, connect_calls, will_message, status_topic.
  step_refl. step_refl. unfold bind at 1. rewrite call_client_spec.
  destruct (pr (client s) _) as [e1|]; [eexists; reflexivity|].
  unfold bind. rewrite call_client_spec.
  rewrite advance_calls. cbn [client with_client].
  destruct (pr (client s ++ [_])%list _) as [e2|].
  - eexists. rewrite <- advance_calls, advance_advance. reflexivity.
  - rewrite call_client_spec, <- advance_calls, !advance_advance.
    eexists. reflexivity.
Qed.

Lemma connect_handler_spec e s :
  exists message,
    connect_handler e s = (Return tt, advance [] (log_out s LvlError message) s).
Proof.
  unfold connect_handler. step_refl.
  destruct e; rewrite log_spec; eexists; reflexivity.
Qed.

(** X1.  After the disconnect callback, whatever its result code, the
    instance is not connected and the transport has received nothing
    new; a [publish] that follows is refused: it returns [False] and
    hands nothing to the transport. *)
Theorem publish_after_disconnect_callback :
  forall ppr rc t p r q s,
    let s1 := state_after (on_disconnect rc) s in
    result_of (on_disconnect rc) s = Return tt
    /\ is_connected s1 = false
    /\ client s1 = client s
    /\ result_of (publish ppr t p r q) s1 = Return (PyBool false)
    /\ client (state_after (publish ppr t p r q) s1) = client s.
Proof.
  intros ppr rc t p r q s s1.
  assert (H1 : on_disconnect rc s
               = (Return tt,
                  with_is_connected false
                    (advance []
                       (log_out s LvlInfo
                          ("Disconnected from broker with result code "
                           ++ str_of_Z rc ++ ".")) s))).
  { unfold on_disconnect. step_with log_spec. reflexivity. }
  subst s1. unfold result_of, state_after. rewrite H1. cbn [fst snd].
  rewrite publish_disconnected by reflexivity. cbn [fst snd].
  repeat split; unfold advance; simpl; now rewrite ?List.app_nil_r.
Qed.

(** X2.  A connect callback with a result code other than 0 publishes
    nothing, logs the code at level error and leaves the instance not
    connected, also when it was connected before. *)
Theorem on_connect_failure_code :
  forall ppr rc s,
    rc <> 0%Z ->
    on_connect ppr rc s
    = (Return tt,
       with_is_connected false
         (advance []
            (log_out s LvlError ("Connection failed with code " ++ str_of_Z rc))
            s)).
Proof.
  intros ppr rc s Hrc. unfold on_connect.
  destruct (rc =? 0)%Z eqn:E; [apply Z.eqb_eq in E; contradiction|].
  step_with log_spec. reflexivity.
Qed.

(** The theorem at a connected instance and the code 5 (not authorised). *)
Lemma on_connect_failure_code_witness :
  5%Z <> 0%Z
  /\ is_connected (state_after (on_connect ok_publish 5) sample_connected)
     = false
  /\ client (state_after (on_connect ok_publish 5) sample_connected)
     = client sample_connected.
Proof.
  split; [discriminate|].
  unfold state_after.
  rewrite (on_connect_failure_code ok_publish 5 sample_connected
             ltac:(discriminate)).
  split; reflexivity.
Defined.

Lemma connect_noop pr s :
  is_connected s = true -> connect pr s = (Return tt, s).
Proof.
  intros Hc. unfold connect. step_refl. rewrite Hc. reflexivity.
Qed.

Lemma on_connect_sets_connected ppr s :
  is_connected (state_after (on_connect ppr 0) s) = true.
Proof.
  unfold state_after, on_connect. cbn [Z.eqb].
  step_refl. erewrite bind_return by apply log_spec. step_refl.
  match goal with
  | |- is_connected (snd (?m ?s0)) = true =>
      change (is_connected (state_after m s0) = is_connected s0);
      apply frames_connected
  end.
  pose proof (frames_publish ppr).
  pose proof (frames_publish_static_sensor_discoveries ppr).
  frame_steps.
Qed.

(** X3.  Once the transport reported a successful connection, [connect]
    does nothing at all: after [on_connect] with code 0 (with or without
    a device identity, whatever the transport answered to the
    announcements), a call of [connect] makes no call on the transport,
    logs nothing and changes no field. *)
Theorem connect_after_connect_callback :
  forall pr ppr s,
    connect pr (state_after (on_connect ppr 0) s)
    = (Return tt, state_after (on_connect ppr 0) s).
Proof.
  intros pr ppr s. apply connect_noop, on_connect_sets_connected.
Qed.

(** X4.  [connect] on an instance that is not connected registers the
    last will first (status topic, payload [offline], QoS 1, retained),
    then opens the connection to the configured host and port with a
    keep-alive of 60, then starts the network loop; a call is made only
    if the one before raised nothing.  Whatever happens it returns
    normally and does not itself mark the instance connected. *)
Theorem connect_call_order :
  forall pr s,
    is_connected s = false ->
    result_of (connect pr) s = Return tt
    /\ client (state_after (connect pr) s)
       = (client s ++ connect_calls pr s)%list
    /\ is_connected (state_after (connect pr) s) = false.
Proof.
  intros pr s Hc. unfold result_of, state_after, connect.
  step_refl. rewrite Hc. cbn [negb]. step_refl. step_with log_spec.
  rewrite advance_out. set (s0 := with_stdout _ s).
  unfold try_except.
  destruct (connect_attempt_calls pr s0) as (r & Hr). rewrite Hr.
  change (connect_calls pr s0) with (connect_calls pr s).
  destruct r as [[]|e].
  - cbn [fst snd]. split; [reflexivity | split; [reflexivity | exact Hc]].
  - destruct (connect_handler_spec e (advance (connect_calls pr s) [] s0))
      as (msg & Hh).
    rewrite Hh. cbn [fst snd]. rewrite advance_advance, List.app_nil_r.
    split; [reflexivity | split; [reflexivity | exact Hc]].
Qed.

Lemma connect_call_order_witness :
  is_connected (init default_client_id) = false
  /\ client (state_after (connect ok_reply) (init default_client_id))
     = [ will_set (mkMessage "ha_idrac_controller/status" "offline" 1 true);
         paho_connect "core-mosquitto" 1883 60;
         loop_start ]
  /\ client (state_after (connect refusing_reply) (init default_client_id))
     = [ will_set (mkMessage "ha_idrac_controller/status" "offline" 1 true);
         paho_connect "core-mosquitto" 1883 60 ].
Proof.
  split; [reflexivity|]. split.
  - rewrite (proj1 (proj2 (connect_call_order ok_reply
                             (init default_client_id) eq_refl))).
    reflexivity.
  - rewrite (proj1 (proj2 (connect_call_order refusing_reply
                             (init default_client_id) eq_refl))).
    reflexivity.
Defined.

(** X5.  [disconnect] on an instance that is connected, with a transport
    that raises nothing: the network loop is stopped, then the
    connection is closed.  From within that call the transport may call
    [on_disconnect] back (paho does, with code 0, the loop being
    stopped): each such call logs its info line.  Then the info line of
    [disconnect] is logged and the instance is marked not connected.  No
    message is published: the [offline] status is left to the last
    will. *)
Theorem disconnect_when_connected :
  forall pr cbs s,
    is_connected s = true ->
    pr (client s) loop_stop = None ->
    pr (client s ++ [loop_stop])%list paho_disconnect = None ->
    disconnect pr cbs s
    = (Return tt,
       with_is_connected false
         (advance [loop_stop; paho_disconnect]
                  (flat_map
                     (fun rc =>
                        log_out s LvlInfo
                          ("Disconnected from broker with result code "
                           ++ str_of_Z rc ++ "."))
                     (cbs (client s ++ [loop_stop])%list)
                   ++ log_out s LvlInfo "Gracefully disconnected.") s))
    /\ published (client (state_after (disconnect pr cbs) s))
       = published (client s).
Proof.
  intros pr cbs s Hc H1 H2.
  pose proof (disconnect_returns pr cbs s Hc H1 H2) as H.
  split; [exact H|].
  unfold state_after. rewrite H. cbn [snd].
  unfold advance. simpl. rewrite published_app. simpl.
  now rewrite List.app_nil_r.
Qed.

(** The theorem with paho's callback: two lines are logged. *)
Lemma disconnect_when_connected_witness :
  is_connected sample_connected = true
  /\ disconnect ok_reply stopped_loop_callbacks sample_connected
     = (Return tt,
        with_is_connected false
          (advance [loop_stop; paho_disconnect]
             ["[INFO] MQTT: Disconnected from broker with result code 0.";
              "[INFO] MQTT: Gracefully disconnected."]
             sample_connected))
  /\ published
       (client (state_after (disconnect ok_reply stopped_loop_callbacks)
                            sample_connected))
     = published (client sample_connected).
Proof.
  split; [reflexivity|].
  exact (disconnect_when_connected ok_reply stopped_loop_callbacks
           sample_connected eq_refl eq_refl eq_refl).
Defined.

(** X6.  [disconnect] is idempotent: after a [disconnect] that went
    through, and after a disconnect callback, a further [disconnect]
    makes no call on the transport, logs nothing and changes no field. *)
Theorem disconnect_twice :
  forall pr cbs s,
    is_connected s = true ->
    pr (client s) loop_stop = None ->
    pr (client s ++ [loop_stop])%list paho_disconnect = None ->
    disconnect pr cbs (state_after (disconnect pr cbs) s)
    = (Return tt, state_after (disconnect pr cbs) s)
    /\ forall rc,
         disconnect pr cbs (state_after (on_disconnect rc) s)
         = (Return tt, state_after (on_disconnect rc) s).
Proof.
  intros pr cbs s Hc H1 H2. split.
  - apply disconnect_noop. unfold state_after.
    rewrite (disconnect_returns pr cbs s Hc H1 H2). reflexivity.
  - intros rc. apply disconnect_noop. unfold state_after.
    rewrite on_disconnect_spec. reflexivity.
Qed.

Lemma disconnect_twice_witness :
  is_connected sample_connected = true
  /\ client (state_after (disconnect ok_reply stopped_loop_callbacks)
               (state_after (disconnect ok_reply stopped_loop_callbacks)
                            sample_connected))
     = (client sample_connected ++ [loop_stop; paho_disconnect])%list.
Proof.
  split; [reflexivity|].
  unfold state_after at 1.
  rewrite (proj1 (disconnect_twice ok_reply stopped_loop_callbacks
                    sample_connected eq_refl eq_refl eq_refl)).
  reflexivity.
Defined.

(** X7.  [disconnect] has no handler: when stopping the loop or closing
    the connection raises, the exception reaches the caller, nothing is
    logged, and the instance is still marked connected. *)
Theorem disconnect_propagates :
  forall pr cbs s e,
    is_connected s = true ->
    pr (client s) loop_stop = Some e
    \/ (pr (client s) loop_stop = None
        /\ pr (client s ++ [loop_stop])%list paho_disconnect = Some e) ->
    result_of (disconnect pr cbs) s = Raise e
    /\ is_connected (state_after (disconnect pr cbs) s) = true
    /\ stdout (state_after (disconnect pr cbs) s) = stdout s.
Proof.
  intros pr cbs s e Hc H. unfold result_of, state_after, disconnect.
  step_refl. rewrite Hc. destruct H as [H1 | [H1 H2]].
  - erewrite bind_raise; cycle 1.
    { rewrite call_client_spec, H1. reflexivity. }
    cbn [fst snd]. split; [reflexivity|]. split; [exact Hc|].
    unfold advance. simpl. now rewrite List.app_nil_r.
  - erewrite bind_return; cycle 1.
    { rewrite call_client_spec, H1. reflexivity. }
    cbv beta.
    erewrite bind_raise; cycle 1.
    { apply client_disconnect_raises. rewrite advance_calls.
      cbn [client with_client]. exact H2. }
    cbn [fst snd]. split; [reflexivity|]. split; [exact Hc|].
    unfold advance. simpl. now rewrite !List.app_nil_r.
Qed.

Lemma disconnect_propagates_witness :
  is_connected sample_connected = true
  /\ result_of (disconnect stuck_loop_reply stopped_loop_callbacks)
               sample_connected
     = Raise (Exception "cannot join current thread")
  /\ is_connected (state_after
                     (disconnect stuck_loop_reply stopped_loop_callbacks)
                     sample_connected)
     = true.
Proof.
  split; [reflexivity|].
  destruct (disconnect_propagates stuck_loop_reply stopped_loop_callbacks
              sample_connected
              (Exception "cannot join current thread")
              eq_refl (or_introl eq_refl)) as (H1 & H2 & _).
  split; [exact H1 | exact H2].
Defined.

(** X8.  [publish] never raises.  The flag it returns is what
    [is_published()] of the transport's answer gives when the instance is
    connected and neither [client.publish] nor [is_published()] raised;
    in every other case it is [False].  The transport receives the
    message exactly when the instance is connected. *)
Theorem publish_result :
  forall ppr t p r q s,
    result_of (publish ppr t p r q) s
    = Return
        (PyBool
           (if is_connected s then
              match ppr (client s) (mkMessage t p q r) with
              | Return info =>
                  match info_is_published info with
                  | Return b => b
                  | Raise _ => false
                  end
              | Raise _ => false
              end
            else false))
    /\ client (state_after (publish ppr t p r q) s)
       = (client s
          ++ if is_connected s then [paho_publish (mkMessage t p q r)]
             else [])%list.
Proof.
  intros ppr t p r q s.
  assert (H : exists out,
             publish ppr t p r q s
             = (Return
                  (PyBool
                     (if is_connected s then
                        match ppr (client s) (mkMessage t p q r) with
                        | Return info =>
                            match info_is_published info with
                            | Return b => b
                            | Raise _ => false
                            end
                        | Raise _ => false
                        end
                      else false)),
                advance (if is_connected s
                         then [paho_publish (mkMessage t p q r)] else [])
                        out s)).
  { destruct (is_connected s) eqn:Hc.
    - unfold publish. step_refl. rewrite Hc. unfold try_except.
      unfold bind at 1. rewrite client_publish_spec.
      destruct (ppr (client s) (mkMessage t p q r)) as [[rc pub]|e].
      + cbn [info_rc info_is_published].
        destruct (negb (rc =? MQTT_ERR_SUCCESS)%Z).
        * step_with log_spec. unfold bind, of_result, ret.
          destruct pub as [b|e]; rewrite ?log_spec, ?advance_advance;
            eexists; reflexivity.
        * step_refl. unfold bind, of_result, ret.
          destruct pub as [b|e]; rewrite ?log_spec, ?advance_advance;
            eexists; reflexivity.
      + unfold bind, ret. rewrite log_spec, advance_advance.
        eexists. reflexivity.
    - rewrite publish_disconnected by exact Hc. eexists. reflexivity. }
  destruct H as (out & H). unfold result_of, state_after. rewrite H.
  split; reflexivity.
Qed.

(** X9.  A [publish] made right after [connect] returned, before the
    transport has called [on_connect] back, is refused: [connect] does
    not mark the instance connected, so the message is dropped and
    [False] returned. *)
Theorem publish_before_connect_callback :
  forall pr ppr t p r q s,
    is_connected s = false ->
    let s1 := state_after (connect pr) s in
    result_of (publish ppr t p r q) s1 = Return (PyBool false)
    /\ published (client (state_after (publish ppr t p r q) s1))
       = published (client s).
Proof.
  intros pr ppr t p r q s Hc s1.
  destruct (connect_call_order pr s Hc) as (_ & Hcalls & Hc1).
  fold s1 in Hcalls, Hc1.
  unfold result_of, state_after.
  rewrite publish_disconnected by exact Hc1. cbn [fst snd].
  split; [reflexivity|].
  unfold advance. simpl. rewrite List.app_nil_r, Hcalls, published_app.
  unfold connect_calls.
  destruct (pr (client s) _); [simpl; now rewrite List.app_nil_r|].
  destruct (pr _ _); simpl; now rewrite List.app_nil_r.
Qed.

Lemma publish_before_connect_callback_witness :
  is_connected sample_identity = false
  /\ result_of (publish ok_publish "ha_idrac_controller/status" "online" true 0)
               (state_after (connect ok_reply) sample_identity)
     = Return (PyBool false).
Proof.
  split; [reflexivity|].
  exact (proj1 (publish_before_connect_callback ok_reply ok_publish
                  "ha_idrac_controller/status" "online" true 0
                  sample_identity eq_refl)).
Defined.

(** ** The device identity *)

Lemma str_contains_append c a b :
  str_contains c (a ++ b) = str_contains c a || str_contains c b.
Proof.
  induction a as [|x a IH]; simpl; [reflexivity|].
  now rewrite IH, orb_assoc.
Qed.

Lemma str_replace_removes old new a :
  Ascii.eqb new old = false ->
  str_contains old (str_replace old new a) = false.
Proof.
  intros Hne. induction a as [|x a IH]; simpl; [reflexivity|].
  rewrite IH, orb_false_r.
  destruct (Ascii.eqb x old) eqn:E; [exact Hne | exact E].
Qed.

(** X10.  Whatever address is given, [set_device_info] stores exactly one
    identifier, and that identifier contains no dot: it can be used as
    one level of a topic and inside Home Assistant's object ids. *)
Theorem identifier_has_no_dot :
  forall manufacturer model ip_address s,
    exists d node_id,
      device_info_dict
        (state_after (set_device_info manufacturer model ip_address) s)
      = Some d
      /\ identifiers d = [node_id]
      /\ str_contains "."%char node_id = false.
Proof.
  intros manufacturer model ip_address s.
  exists (make_device_info manufacturer model ip_address),
         (device_identifier ip_address).
  split.
  { unfold state_after, set_device_info. step_refl.
    rewrite log_spec. reflexivity. }
  split; [reflexivity|].
  unfold device_identifier. rewrite !str_contains_append.
  cbn [str_contains Ascii.eqb Bool.eqb orb andb].
  rewrite orb_false_r. unfold sanitized_ip.
  destruct ip_address as [a|]; [|reflexivity].
  destruct (str_truthy a); [|reflexivity].
  now apply str_replace_removes.
Qed.

Lemma set_device_info_state manufacturer model ip_address s :
  exists out,
    state_after (set_device_info manufacturer model ip_address) s
    = advance [] out
        (with_device_info
           (Some (make_device_info manufacturer model ip_address)) s).
Proof.
  unfold state_after, set_device_info. step_refl. rewrite log_spec.
  eexists. reflexivity.
Qed.

(** X11.  Once [set_device_info] was called, whatever its arguments, and
    whatever the transport answers: [publish_sensor_discovery] and
    [publish_static_sensor_discoveries] return [None] and [on_connect]
    returns, none of them raises; [publish_sensor_state] returns [None]
    when [json.dumps] writes the value, and raises what [json.dumps]
    raises on it, nothing else. *)
Theorem only_json_dumps_raises_after_set_device_info :
  forall manufacturer model ip_address ppr s,
    let s1 :=
      state_after (set_device_info manufacturer model ip_address) s in
    (forall x, result_of (publish_sensor_discovery ppr x) s1 = Return PyNone)
    /\ (forall jr slug v sfx,
           result_of (publish_sensor_state ppr jr slug v sfx) s1
           = match jr v with
             | None => Return PyNone
             | Some e => Raise e
             end)
    /\ result_of (publish_static_sensor_discoveries ppr) s1 = Return PyNone
    /\ (forall rc, result_of (on_connect ppr rc) s1 = Return tt).
Proof.
  intros manufacturer model ip_address ppr s s1.
  destruct (set_device_info_state manufacturer model ip_address s)
    as (out & Hs1).
  fold s1 in Hs1.
  set (d := make_device_info manufacturer model ip_address) in *.
  assert (E : device_info_dict s1 = Some d) by (rewrite Hs1; reflexivity).
  assert (Hid : identifiers d = [device_identifier ip_address])
    by reflexivity.
  unfold result_of. repeat split.
  - intros x. destruct (is_connected s1) eqn:Hc.
    + destruct (discovery_connected ppr x d _ _ s1 E Hid Hc) as (o & H).
      now rewrite H.
    + destruct (discovery_disconnected ppr x d _ _ s1 E Hid Hc) as (o & H).
      now rewrite H.
  - intros jr slug v sfx. destruct (jr v) as [e|] eqn:Hj.
    + now rewrite (state_raises ppr jr slug v sfx d _ _ s1 e E Hid Hj).
    + destruct (is_connected s1) eqn:Hc.
      * destruct (state_connected ppr jr slug v sfx d _ _ s1 E Hid Hc Hj)
          as (o & H).
        now rewrite H.
      * now rewrite (state_disconnected ppr jr slug v sfx d _ _ s1
                       E Hid Hc Hj).
  - destruct (is_connected s1) eqn:Hc.
    + destruct (static_discoveries_connected ppr d _ _ s1 E Hid Hc)
        as (o & H).
      now rewrite H.
    + now rewrite (static_discoveries_skipped ppr s1 (or_introl Hc)).
  - intros rc. destruct (Z.eqb_spec rc 0) as [->|Hrc].
    + destruct (on_connect_with_info ppr d _ _ s1 E Hid) as (o & H).
      now rewrite H.
    + unfold on_connect. destruct (rc =? 0)%Z eqn:Erc.
      * apply Z.eqb_eq in Erc. contradiction.
      * step_with log_spec. reflexivity.
Qed.

(** ** Discovery and state messages *)

(** X12.  Re-announcing is idempotent on the wire: with the identity set
    and while connected, two calls of [publish_sensor_discovery] with
    the same arguments hand the transport the same message twice (same
    topic, same payload, hence same unique id), and nothing else. *)
Theorem discovery_twice_same_message :
  forall ppr x s d node_id rest,
    device_info_dict s = Some d ->
    identifiers d = node_id :: rest ->
    is_connected s = true ->
    client (state_after (publish_sensor_discovery ppr x)
              (state_after (publish_sensor_discovery ppr x) s))
    = (client s
       ++ [ paho_publish (discovery_message d node_id x);
            paho_publish (discovery_message d node_id x) ])%list.
Proof.
  intros ppr x s d node_id rest E Hid Hc.
  destruct (discovery_connected ppr x d node_id rest s E Hid Hc)
    as (o1 & H1).
  unfold state_after at 2. rewrite H1. cbn [snd].
  destruct (discovery_connected ppr x d node_id rest
              (advance [paho_publish (discovery_message d node_id x)] o1 s)
              E Hid Hc) as (o2 & H2).
  unfold state_after. rewrite H2. cbn [snd]. rewrite advance_advance.
  reflexivity.
Qed.

Lemma discovery_twice_same_message_witness :
  is_connected sample_connected = true
  /\ map topic
       (skipn 7
          (published
             (client
                (state_after (publish_sensor_discovery ok_publish inlet_temp)
                   (state_after
                      (publish_sensor_discovery ok_publish inlet_temp)
                      sample_connected)))))
     = [ "homeassistant/sensor/idrac_controller_192_168_1_5_device/inlet_temp/config";
         "homeassistant/sensor/idrac_controller_192_168_1_5_device/inlet_temp/config" ].
Proof.
  split; [reflexivity|].
  rewrite (discovery_twice_same_message ok_publish inlet_temp
             sample_connected
             (make_device_info (Some "Dell") (Some "R720")
                               (Some "192.168.1.5"))
             "idrac_controller_192_168_1_5_device" []
             eq_refl eq_refl eq_refl).
  reflexivity.
Defined.

(** X13.  The state topic a discovery announces is the topic the states
    go to: with the identity set and while connected, the payload of the
    message [publish_sensor_discovery] sends names, under [state_topic],
    exactly the topic on which [publish_sensor_state] publishes, for the
    same slug and the same suffix, a value that [json.dumps] writes. *)
Theorem announced_state_topic_is_used :
  forall ppr jr x v s d node_id rest,
    device_info_dict s = Some d ->
    identifiers d = node_id :: rest ->
    is_connected s = true ->
    jr v = None ->
    exists state_topic announcement entries state,
      published (client (state_after (publish_sensor_discovery ppr x) s))
      = (published (client s) ++ [announcement])%list
      /\ payload announcement = json_dumps (PDict entries)
      /\ In (KStr "state_topic", PStr state_topic) entries
      /\ published
           (client
              (state_after
                 (publish_sensor_state ppr jr (sensor_type_slug x) v
                                       (unique_id_suffix x)) s))
         = (published (client s) ++ [state])%list
      /\ topic state = state_topic
      /\ payload state = json_dumps v.
Proof.
  intros ppr jr x v s d node_id rest E Hid Hc Hj.
  destruct (discovery_connected ppr x d node_id rest s E Hid Hc)
    as (o1 & H1).
  destruct (state_connected ppr jr (sensor_type_slug x) v
              (unique_id_suffix x) d node_id rest s E Hid Hc Hj)
    as (o2 & H2).
  eexists. exists (discovery_message d node_id x). eexists. eexists.
  unfold state_after. rewrite H1, H2. cbn [snd].
  split.
  { unfold advance. simpl. now rewrite published_app. }
  split; [reflexivity|].
  split; [right; left; reflexivity|].
  split.
  { unfold advance. simpl. rewrite published_app. reflexivity. }
  split; [|reflexivity].
  cbn [topic]. unfold config_topic_slug_part.
  now rewrite !append_assoc.
Qed.

Lemma announced_state_topic_is_used_witness :
  is_connected sample_connected = true
  /\ int_limit_raises
       (str_dict [("temperature", PFloat (FFinite false [d4; d2] 2))])
     = None
  /\ exists state_topic announcement entries state,
       published
         (client (state_after (publish_sensor_discovery ok_publish inlet_temp)
                              sample_connected))
       = (published (client sample_connected) ++ [announcement])%list
       /\ payload announcement = json_dumps (PDict entries)
       /\ In (KStr "state_topic", PStr state_topic) entries
       /\ published
            (client
               (state_after
                  (publish_sensor_state ok_publish int_limit_raises
                     "inlet_temp"
                     (str_dict [("temperature",
                                 PFloat (FFinite false [d4; d2] 2))])
                     None) sample_connected))
          = (published (client sample_connected) ++ [state])%list
       /\ topic state = state_topic
       /\ payload state
          = json_dumps
              (str_dict [("temperature", PFloat (FFinite false [d4; d2] 2))]).
Proof.
  split; [reflexivity | split; [reflexivity|]].
  exact (announced_state_topic_is_used ok_publish int_limit_raises inlet_temp
           (str_dict [("temperature", PFloat (FFinite false [d4; d2] 2))])
           sample_connected
           (make_device_info (Some "Dell") (Some "R720") (Some "192.168.1.5"))
           "idrac_controller_192_168_1_5_device" []
           eq_refl eq_refl eq_refl eq_refl).
Defined.

Lemma append_inv_head (a x y : string) : (a ++ x = a ++ y)%string -> x = y.
Proof.
  induction a as [|c a IH]; simpl; intros H; [exact H|].
  injection H as H. now apply IH.
Qed.

Lemma append_inv_tail (x y a : string) : (x ++ a = y ++ a)%string -> x = y.
Proof.
  revert y. induction x as [|c x IH]; intros y H.
  - destruct y as [|c' y]; [reflexivity|].
    apply (f_equal String.length) in H. rewrite length_append in H.
    cbn [append String.length] in H. rewrite length_append in H. lia.
  - destruct y as [|c' y].
    + apply (f_equal String.length) in H. rewrite length_append in H.
      cbn [append String.length] in H. lia.
    + cbn [append] in H. injection H as Hc H. subst c'. f_equal.
      now apply IH.
Qed.

(** X14.  Entities that differ in their slug and agree on the suffix
    never share a configuration: for one device their discovery topics
    differ, their unique ids differ and their state topics differ. *)
Theorem distinct_slugs_distinct_entities :
  forall node_id x y,
    unique_id_suffix x = unique_id_suffix y ->
    sensor_type_slug x <> sensor_type_slug y ->
    config_topic node_id x <> config_topic node_id y
    /\ base_unique_id node_id x <> base_unique_id node_id y
    /\ (state_topic_base node_id ++ "/" ++ config_topic_slug_part x
        ++ "/state")%string
       <> (state_topic_base node_id ++ "/" ++ config_topic_slug_part y
           ++ "/state")%string.
Proof.
  intros node_id x y Hsfx Hslug.
  assert (Hpart : config_topic_slug_part x <> config_topic_slug_part y).
  { unfold config_topic_slug_part. rewrite Hsfx. intros H.
    apply append_inv_tail in H. contradiction. }
  repeat split.
  - unfold config_topic. intros H.
    apply append_inv_head, append_inv_head, append_inv_head in H.
    apply append_inv_tail in H. contradiction.
  - unfold base_unique_id. rewrite Hsfx.
    destruct (unique_id_suffix y) as [sfx|].
    + destruct (str_truthy sfx); intros H.
      * apply append_inv_tail in H.
        apply append_inv_head, append_inv_head in H. contradiction.
      * apply append_inv_head, append_inv_head in H. contradiction.
    + intros H. apply append_inv_head, append_inv_head in H. contradiction.
  - intros H. unfold state_topic_base in H. rewrite !append_assoc in H.
    apply append_inv_head, append_inv_head, append_inv_head in H.
    apply append_inv_tail in H. contradiction.
Qed.

Lemma distinct_slugs_distinct_entities_witness :
  unique_id_suffix inlet_temp = unique_id_suffix exhaust_temp
  /\ sensor_type_slug inlet_temp <> sensor_type_slug exhaust_temp
  /\ config_topic "idrac_controller_192_168_1_5_device" inlet_temp
     <> config_topic "idrac_controller_192_168_1_5_device" exhaust_temp.
Proof.
  split; [reflexivity|].
  assert (H : sensor_type_slug inlet_temp <> sensor_type_slug exhaust_temp)
    by discriminate.
  split; [exact H|].
  exact (proj1 (distinct_slugs_distinct_entities
                  "idrac_controller_192_168_1_5_device"
                  inlet_temp exhaust_temp eq_refl H)).
Defined.

(** The suffix is glued to the slug: entities with different suffixes can
    collide. *)
Lemma glued_suffix_collides :
  config_topic "n" (mkDescriptor "fan" "Fan 12" None None None None None
                                 (Some "12") None)
  = config_topic "n" (mkDescriptor "fan1" "Fan 2" None None None None None
                                   (Some "2") None).
Proof. reflexivity. Qed.

(** X15.  [publish_static_sensor_discoveries] on an instance that is not
    connected, or has no device identity, announces nothing: it logs one
    warning, makes no call on the transport and returns [None]. *)
Theorem static_discoveries_need_connection_and_identity :
  forall ppr s,
    is_connected s = false \/ device_info_dict s = None ->
    publish_static_sensor_discoveries ppr s
    = (Return PyNone,
       with_stdout
         (stdout s
          ++ if log_enabled (log_level s) LvlWarning
             then ["[WARNING] MQTT: MQTT not connected or device_info not set, skipping static discoveries."]
             else [])%list
         s).
Proof.
  intros ppr s H.
  unfold publish_static_sensor_discoveries. step_refl. step_refl.
  assert (Hlog :
    _log LvlWarning
      "MQTT not connected or device_info not set, skipping static discoveries."
      s
    = (Return tt,
       with_stdout
         (stdout s
          ++ if log_enabled (log_level s) LvlWarning
             then ["[WARNING] MQTT: MQTT not connected or device_info not set, skipping static discoveries."]
             else [])%list
         s)).
  { rewrite log_spec, advance_out. reflexivity. }
  destruct H as [H|H]; rewrite H.
  - step_with Hlog. reflexivity.
  - destruct (is_connected s); step_with Hlog; reflexivity.
Qed.

Lemma static_discoveries_need_connection_and_identity_witness :
  is_connected sample_identity = false
  /\ client (state_after (publish_static_sensor_discoveries ok_publish)
                         sample_identity) = [].
Proof.
  split; [reflexivity|].
  unfold state_after.
  rewrite (static_discoveries_need_connection_and_identity ok_publish
             sample_identity (or_introl eq_refl)).
  reflexivity.
Defined.

(** X16.  [publish_sensor_state] without a device identity publishes
    nothing, also while connected: it logs one warning, makes no call on
    the transport (the value is not even serialised) and returns
    [None]. *)
Theorem state_without_device_info :
  forall ppr jr slug v sfx s,
    device_info_dict s = None ->
    publish_sensor_state ppr jr slug v sfx s
    = (Return PyNone,
       with_stdout
         (stdout s
          ++ if log_enabled (log_level s) LvlWarning
             then ["[WARNING] MQTT: Device info not set. Cannot publish sensor state."]
             else [])%list
         s).
Proof.
  intros ppr jr slug v sfx s E. unfold publish_sensor_state.
  step_refl. rewrite E. step_with log_spec.
  rewrite advance_out. reflexivity.
Qed.

Lemma state_without_device_info_witness :
  device_info_dict sample_anonymous = None
  /\ is_connected sample_anonymous = true
  /\ client (state_after
               (publish_sensor_state ok_publish int_limit_raises "inlet_temp"
                  (str_dict [("temperature", PInt 42)]) None)
               sample_anonymous)
     = client sample_anonymous.
Proof.
  split; [reflexivity | split; [reflexivity|]].
  unfold state_after.
  rewrite (state_without_device_info ok_publish int_limit_raises "inlet_temp"
             (str_dict [("temperature", PInt 42)]) None sample_anonymous
             eq_refl).
  reflexivity.
Defined.

(** X17.  Every reconnect re-announces: with the identity set, a successful
    connect callback, a disconnect callback (whatever its code) and a
    second successful connect callback hand the transport the same seven
    messages twice, in the same order, and nothing else. *)
Theorem reconnect_announces_again :
  forall ppr s d node_id rest,
    device_info_dict s = Some d ->
    identifiers d = node_id :: rest ->
    let announcements :=
      map paho_publish
          [ status_config_message d node_id;
            online_message;
            discovery_message d node_id inlet_temp;
            discovery_message d node_id exhaust_temp;
            discovery_message d node_id target_fan_speed;
            discovery_message d node_id hottest_cpu_temp;
            discovery_message d node_id power_consumption ] in
    forall rc,
      client (state_after (on_connect ppr 0)
                (state_after (on_disconnect rc)
                   (state_after (on_connect ppr 0) s)))
      = (client s ++ announcements ++ announcements)%list.
Proof.
  intros ppr s d node_id rest E Hid announcements rc.
  destruct (on_connect_with_info ppr d node_id rest s E Hid) as (o1 & H1).
  unfold state_after at 3. rewrite H1. cbn [snd].
  fold announcements.
  set (s1 := advance announcements o1 (with_is_connected true s)).
  assert (H2 : state_after (on_disconnect rc) s1
               = with_is_connected false
                   (advance []
                      (log_out s1 LvlInfo
                         ("Disconnected from broker with result code "
                          ++ str_of_Z rc ++ ".")) s1)).
  { unfold state_after, on_disconnect. step_with log_spec. reflexivity. }
  rewrite H2. set (s2 := with_is_connected false _).
  assert (E2 : device_info_dict s2 = Some d) by exact E.
  destruct (on_connect_with_info ppr d node_id rest s2 E2 Hid) as (o3 & H3).
  unfold state_after. rewrite H3. cbn [snd]. fold announcements.
  subst s2 s1. unfold advance. simpl.
  now rewrite List.app_nil_r, <- !List.app_assoc.
Qed.

Lemma reconnect_announces_again_witness :
  device_info_dict sample_identity
  = Some (make_device_info (Some "Dell") (Some "R720") (Some "192.168.1.5"))
  /\ length
       (published
          (client
             (state_after (on_connect ok_publish 0)
                (state_after (on_disconnect 7)
                   (state_after (on_connect ok_publish 0) sample_identity)))))
     = 14%nat.
Proof.
  split; [reflexivity|].
  rewrite (reconnect_announces_again ok_publish sample_identity
             (make_device_info (Some "Dell") (Some "R720")
                               (Some "192.168.1.5"))
             "idrac_controller_192_168_1_5_device" [] eq_refl eq_refl 7%Z).
  reflexivity.
Defined.

(** ** Payloads and log lines *)

Lemma printable_append a b :
  printable_ascii (a ++ b) = printable_ascii a && printable_ascii b.
Proof.
  induction a as [|c a IH]; simpl; [reflexivity|].
  now rewrite IH, andb_assoc.
Qed.

Lemma printable_digits ds : printable_ascii (str_of_digits ds) = true.
Proof.
  induction ds as [|d ds IH]; [reflexivity|].
  cbn [str_of_digits printable_ascii]. rewrite IH. now destruct d.
Qed.

Lemma printable_str_of_Z z : printable_ascii (str_of_Z z) = true.
Proof.
  destruct z; unfold str_of_Z, str_of_N; rewrite ?printable_append;
    rewrite printable_digits; reflexivity.
Qed.

Lemma printable_exp_str e : printable_ascii (exp_str e) = true.
Proof.
  unfold exp_str. rewrite printable_append, printable_digits.
  now destruct (e <? 0)%Z.
Qed.

Lemma printable_float_str f : printable_ascii (float_str f) = true.
Proof.
  destruct f as [neg ds e|[]]; try reflexivity.
  cbn [float_str]. rewrite printable_append.
  replace (printable_ascii (if neg then "-" else "")) with true
    by (now destruct neg).
  unfold float_repr_abs.
  destruct ((e <=? -4) || (16 <? e))%Z.
  - destruct ds as [|d [|x tl]]; [reflexivity| |];
      rewrite ?printable_append, ?printable_digits, ?printable_exp_str;
      reflexivity.
  - destruct (e <=? 0)%Z.
    + rewrite printable_append, printable_digits. reflexivity.
    + destruct (Z.to_nat e <? length ds)%nat;
        rewrite ?printable_append, ?printable_digits; reflexivity.
Qed.

Lemma printable_json_chr c : printable_ascii (json_chr c) = true.
Proof. destruct c as [[] [] [] [] [] [] [] []]; reflexivity. Qed.

Lemma printable_json_str_body s :
  printable_ascii (json_str_body s) = true.
Proof.
  induction s as [|c s IH]; [reflexivity|].
  cbn [json_str_body]. now rewrite printable_append, printable_json_chr, IH.
Qed.

Lemma printable_json_str s : printable_ascii (json_str s) = true.
Proof.
  change (json_str s)
    with (String dquote "" ++ json_str_body s ++ String dquote "")%string.
  now rewrite !printable_append, printable_json_str_body.
Qed.

(** Whatever object it is given (strings with control characters or
    code points from 128 to 255, at any depth), [json_dumps] writes
    printable ASCII. *)
Lemma printable_json_dumps o : printable_ascii (json_dumps o) = true.
Proof.
  revert o. fix IH 1. intros [| [] | z | f | s | l | d]; try reflexivity.
  - apply printable_str_of_Z.
  - apply printable_float_str.
  - apply printable_json_str.
  - cbn [json_dumps]. rewrite !printable_append.
    cbn [printable_ascii]. rewrite andb_true_r. cbn [andb].
    induction l as [|x l IHl]; [reflexivity|].
    rewrite printable_append, (IH x). cbn [andb].
    destruct l as [|y l']; [reflexivity|].
    rewrite printable_append. exact IHl.
  - cbn [json_dumps]. rewrite !printable_append.
    cbn [printable_ascii]. rewrite andb_true_r. cbn [andb].
    induction d as [|[k v] d IHd]; [reflexivity|].
    rewrite !printable_append, printable_json_str, (IH v). cbn [andb].
    cbn [printable_ascii]. cbn [andb].
    destruct d as [|kv d']; [reflexivity|].
    rewrite printable_append. exact IHd.
Qed.

(** X18.  The payloads are printable ASCII: with the identity set and
    while connected, the payload of the message
    [publish_sensor_discovery] sends and the payload of the message
    [publish_sensor_state] sends, for a value that [json.dumps] writes,
    hold only characters from the space to the tilde, also when names,
    units or values hold control characters or characters with code
    points from 128 to 255 (they are escaped). *)
Theorem payloads_are_printable_ascii :
  forall ppr jr x slug v sfx s d node_id rest,
    device_info_dict s = Some d ->
    identifiers d = node_id :: rest ->
    is_connected s = true ->
    jr v = None ->
    exists announcement state o1 o2,
      publish_sensor_discovery ppr x s
      = (Return PyNone, advance [paho_publish announcement] o1 s)
      /\ printable_ascii (payload announcement) = true
      /\ publish_sensor_state ppr jr slug v sfx s
         = (Return PyNone, advance [paho_publish state] o2 s)
      /\ printable_ascii (payload state) = true.
Proof.
  intros ppr jr x slug v sfx s d node_id rest E Hid Hc Hj.
  destruct (discovery_connected ppr x d node_id rest s E Hid Hc)
    as (o1 & H1).
  destruct (state_connected ppr jr slug v sfx d node_id rest s E Hid Hc Hj)
    as (o2 & H2).
  eexists. eexists. exists o1, o2.
  split; [exact H1|]. split; [apply printable_json_dumps|].
  split; [exact H2 | apply printable_json_dumps].
Qed.

Lemma payloads_are_printable_ascii_witness :
  is_connected sample_connected = true
  /\ int_limit_raises (str_dict [("unit", PStr degrees_celsius)]) = None
  /\ exists announcement state o1 o2,
       publish_sensor_discovery ok_publish inlet_temp sample_connected
       = (Return PyNone,
          advance [paho_publish announcement] o1 sample_connected)
       /\ printable_ascii (payload announcement) = true
       /\ publish_sensor_state ok_publish int_limit_raises "note"
            (str_dict [("unit", PStr degrees_celsius)]) None sample_connected
          = (Return PyNone, advance [paho_publish state] o2 sample_connected)
       /\ printable_ascii (payload state) = true.
Proof.
  split; [reflexivity | split; [reflexivity|]].
  exact (payloads_are_printable_ascii ok_publish int_limit_raises inlet_temp
           "note"
           (str_dict [("unit", PStr degrees_celsius)]) None sample_connected
           (make_device_info (Some "Dell") (Some "R720") (Some "192.168.1.5"))
           "idrac_controller_192_168_1_5_device" []
           eq_refl eq_refl eq_refl eq_refl).
Defined.

(** X19.  A verbosity that is none of the six names [_log] knows counts
    as [info]: debug and trace messages are dropped, every other message
    is printed, as one line [[LEVEL] MQTT: message]. *)
Theorem unknown_log_level_is_info :
  forall l message s,
    known_level (log_level s) = false ->
    _log l message s
    = (Return tt,
       with_stdout
         (stdout s
          ++ match l with
             | LvlTrace | LvlDebug => []
             | _ => [("[" ++ level_upper l ++ "] MQTT: " ++ message)%string]
             end)%list
         s).
Proof.
  intros l message s H. rewrite log_spec, advance_out.
  unfold known_level in H. cbn [existsb] in H.
  repeat (apply orb_false_iff in H; destruct H as [? H]).
  unfold log_out, log_enabled, levels_get.
  repeat match goal with E : String.eqb _ _ = false |- _ =>
           rewrite E; clear E end.
  destruct l; reflexivity.
Qed.

Lemma unknown_log_level_is_info_witness :
  known_level
    (log_level
       (state_after (configure_broker ok_reply "broker" 1883 "" "" "Verbose")
                    (init default_client_id))) = false
  /\ stdout
       (state_after (_log LvlDebug "ping")
          (state_after (configure_broker ok_reply "broker" 1883 "" "" "Verbose")
                       (init default_client_id))) = []
  /\ stdout
       (state_after (_log LvlWarning "ping")
          (state_after (configure_broker ok_reply "broker" 1883 "" "" "Verbose")
                       (init default_client_id)))
     = ["[WARNING] MQTT: ping"].
Proof.
  split; [reflexivity|].
  unfold state_after at 1 3.
  rewrite !unknown_log_level_is_info by reflexivity.
  split; reflexivity.
Defined.

(** X20.  Severity is monotone: when a message of some level is printed
    under the configured verbosity, so is every message of a level that
    ranks at least as high. *)
Theorem log_filter_is_monotone :
  forall l l' message s,
    log_enabled (log_level s) l = true ->
    (levels_get (level_lower l) <= levels_get (level_lower l'))%Z ->
    stdout (state_after (_log l' message) s)
    = (stdout s ++ [log_line l' message])%list.
Proof.
  intros l l' message s Hl Hrank. unfold state_after.
  rewrite log_spec, advance_out. cbn [snd stdout with_stdout].
  unfold log_out, log_enabled in *. apply Z.leb_le in Hl.
  replace (levels_get (log_level s) <=? levels_get (level_lower l'))%Z
    with true by (symmetry; apply Z.leb_le; lia).
  reflexivity.
Qed.

Lemma log_filter_is_monotone_witness :
  log_enabled (log_level sample_identity) LvlInfo = true
  /\ stdout (state_after (_log LvlError "broker gone") sample_identity)
     = (stdout sample_identity ++ ["[ERROR] MQTT: broker gone"])%list.
Proof.
  split; [reflexivity|].
  apply (log_filter_is_monotone LvlInfo LvlError "broker gone"
           sample_identity eq_refl).
  vm_compute. discriminate.
Defined.

(** X21.  The verbosity is read without regard to case: after
    [configure_broker] with a name whose lower-case form is the name of
    a level, a message is printed exactly when its level ranks at least
    as high as that level. *)
Theorem configured_level_ignores_case :
  forall pr host p user pass name l0 l message s,
    str_lower name = level_lower l0 ->
    let s1 := state_after (configure_broker pr host p user pass name) s in
    stdout (state_after (_log l message) s1)
    = (stdout s
       ++ if (levels_get (level_lower l0) <=? levels_get (level_lower l))%Z
          then [log_line l message] else [])%list.
Proof.
  intros pr host p user pass name l0 l message s Hname s1.
  assert (H1 : log_level s1 = level_lower l0 /\ stdout s1 = stdout s).
  { subst s1. unfold state_after, configure_broker. step_refl.
    destruct (str_truthy user).
    - rewrite call_client_spec, advance_calls. cbn [snd]. rewrite <- Hname.
      split; reflexivity.
    - rewrite <- Hname. split; reflexivity. }
  destruct H1 as [Hl Hs]. unfold state_after.
  rewrite log_spec, advance_out. cbn [snd stdout with_stdout].
  unfold log_out, log_enabled. now rewrite Hl, Hs.
Qed.

Lemma configured_level_ignores_case_witness :
  str_lower "WaRnInG" = level_lower LvlWarning
  /\ stdout
       (state_after (_log LvlInfo "ping")
          (state_after
             (configure_broker ok_reply "broker" 1883 "" "" "WaRnInG")
             (init default_client_id))) = []
  /\ stdout
       (state_after (_log LvlError "ping")
          (state_after
             (configure_broker ok_reply "broker" 1883 "" "" "WaRnInG")
             (init default_client_id))) = ["[ERROR] MQTT: ping"].
Proof.
  split; [reflexivity|].
  rewrite !(configured_level_ignores_case ok_reply "broker" 1883 "" ""
              "WaRnInG" LvlWarning) by reflexivity.
  split; reflexivity.
Defined.
